(** * Asset cooker: a shallow embedding of tools/asset_cooker/asset_cooker.py

    The development follows the Python source top-down:

    - [Str] and [PurePath]: the parts of [str] and [pathlib.PurePath] that the
      tool calls ([lower], [rfind], slicing, [name], [suffix], [with_suffix],
      [relative_to], [/]);
    - [FileSystem]: a tree of directories and regular files with the file
      operations the tool performs ([exists], [is_file], [iterdir], [rglob],
      [mkdir(parents=True, exist_ok=True)], [open]/[read]/[write],
      [shutil.copy2]);
    - the four processors, [AssetCooker.get_processor], [cook_asset],
      [cook_directory], [generate_asset_manifest] and [main], written in a
      small state-and-exception monad over the file tree and standard output.

    Strings are byte strings; [str.lower] is modelled on ASCII letters, which
    is what decides membership in the (ASCII) extension tables.  Paths are the
    list of their components below the root of the modelled tree.  Symbolic
    links, permissions and timestamps are not modelled. *)

From Stdlib Require Import List String Ascii Bool Arith Lia QArith DecimalString.
Import ListNotations.

Set Warnings "-register-all".

Local Close Scope Q_scope.
Local Open Scope string_scope.
Local Open Scope list_scope.

(** ** Python [str] *)

Module Str.

(** [c.lower()] for one ASCII character. *)
Definition lower_ascii (c : ascii) : ascii :=
  let n := nat_of_ascii c in
  if (65 <=? n)%nat && (n <=? 90)%nat then ascii_of_nat (n + 32) else c.

(** [s.lower()] *)
Fixpoint lower (s : string) : string :=
  match s with
  | EmptyString => EmptyString
  | String c s' => String (lower_ascii c) (lower s')
  end.

(** [s.rfind(c)]; [None] stands for Python's [-1]. *)
Fixpoint rfind (c : ascii) (s : string) : option nat :=
  match s with
  | EmptyString => None
  | String a s' =>
      match rfind c s' with
      | Some i => Some (S i)
      | None => if Ascii.eqb a c then Some 0%nat else None
      end
  end.

(** [s[i:]] for [0 <= i] *)
Fixpoint drop (i : nat) (s : string) : string :=
  match i, s with
  | O, _ => s
  | S i', String _ s' => drop i' s'
  | S _, EmptyString => EmptyString
  end.

(** [s[:i]] for [0 <= i] *)
Fixpoint take (i : nat) (s : string) : string :=
  match i, s with
  | O, _ => EmptyString
  | S i', String a s' => String a (take i' s')
  | S _, EmptyString => EmptyString
  end.

(** [c in s] for a one-character [c] *)
Fixpoint contains (c : ascii) (s : string) : bool :=
  match s with
  | EmptyString => false
  | String a s' => Ascii.eqb a c || contains c s'
  end.

(** [s.startswith(c)] for a one-character [c] *)
Definition startswith (c : ascii) (s : string) : bool :=
  match s with
  | String a _ => Ascii.eqb a c
  | EmptyString => false
  end.

(** [s.endswith(t)] *)
Definition endswith (t s : string) : bool :=
  (String.length t <=? String.length s)%nat
  && String.eqb (drop (String.length s - String.length t) s) t.

(** [sep.join(l)] *)
Fixpoint join (sep : string) (l : list string) : string :=
  match l with
  | [] => ""
  | [x] => x
  | x :: l' => (x ++ sep ++ join sep l')%string
  end.

(** [x in l] for a list of strings *)
Definition mem (x : string) (l : list string) : bool :=
  existsb (String.eqb x) l.

End Str.

(** ** [pathlib.PurePath] *)

Module PurePath.

(** A path is the list of its components. *)
Definition path := list string.

(** Exceptions the tool can meet.  [OSError] covers its subclasses
    ([FileNotFoundError], [NotADirectoryError], [IsADirectoryError],
    [FileExistsError], [shutil.SameFileError], PIL's
    [UnidentifiedImageError]); [ValueError] covers [UnicodeDecodeError] and
    [json.JSONDecodeError]. *)
Inductive exn := OSError | ValueError | TypeError.

(** [p.name]: the final component, [''] when there is none. *)
Definition name (p : path) : string := last p "".

(** [p.parent] *)
Definition parent (p : path) : path := removelast p.

(** [p / q] *)
Definition joinpath (p q : path) : path := p ++ q.

(** [str(p)] *)
Definition str (p : path) : string :=
  match p with
  | [] => "."
  | _ => Str.join "/" p
  end.

(** The body of the [suffix] property (CPython 3.8 to 3.13), on the final
    component:
<<
    i = name.rfind('.')
    if 0 < i < len(name) - 1: return name[i:]
    else: return ''
>> *)
Definition suffix_of_name (name : string) : string :=
  match Str.rfind "." name with
  | Some i =>
      if (0 <? i)%nat && (S i <? String.length name)%nat
      then Str.drop i name else ""
  | None => ""
  end.

(** [p.suffix] *)
Definition suffix (p : path) : string := suffix_of_name (name p).

(** [p.with_suffix(suffix)]: [ValueError] on a suffix that holds a
    separator, that is ['.'] or that does not start with a dot, and on a
    path with an empty name. *)
Definition with_suffix (p : path) (sfx : string) : exn + path :=
  if Str.contains "/" sfx then inl ValueError
  else if (negb (String.eqb sfx "") && negb (Str.startswith "." sfx))
          || String.eqb sfx "."
  then inl ValueError
  else
    let name := name p in
    if String.eqb name "" then inl ValueError
    else
      let old_suffix := suffix p in
      let name' :=
        if String.eqb old_suffix "" then (name ++ sfx)%string
        else (Str.take (String.length name - String.length old_suffix) name
              ++ sfx)%string in
      inr (parent p ++ [name']).

(** [p.relative_to(other)]: [ValueError] when [other] is not a prefix. *)
Fixpoint relative_to (p other : path) {struct other} : exn + path :=
  match other, p with
  | [], _ => inr p
  | o :: other', c :: p' =>
      if String.eqb o c then relative_to p' other' else inl ValueError
  | _ :: _, [] => inl ValueError
  end.

End PurePath.
Export PurePath.

(** ** The file tree *)

Module FileSystem.

(** File contents. *)
Definition bytes := string.

(** A regular file, or a directory with its entries in the order the
    operating system lists them ([os.scandir]). *)
Inductive node :=
| File (data : bytes)
| Dir (entries : list (string * node)).

(** The entry called [c] of a directory. *)
Fixpoint entry_find (c : string) (es : list (string * node)) : option node :=
  match es with
  | [] => None
  | (c', n) :: es' => if String.eqb c' c then Some n else entry_find c es'
  end.

(** Creates or replaces the entry called [c]. *)
Fixpoint entry_set (c : string) (n : node) (es : list (string * node))
  : list (string * node) :=
  match es with
  | [] => [(c, n)]
  | (c', n') :: es' =>
      if String.eqb c' c then (c', n) :: es' else (c', n') :: entry_set c n es'
  end.

(** What is at path [p] below [n]. *)
Fixpoint lookup (p : path) (n : node) : option node :=
  match p with
  | [] => Some n
  | c :: p' =>
      match n with
      | File _ => None
      | Dir es =>
          match entry_find c es with
          | Some m => lookup p' m
          | None => None
          end
      end
  end.

(** [p.exists()], [p.is_file()], [p.is_dir()] *)
Definition exists_ (p : path) (root : node) : bool :=
  match lookup p root with Some _ => true | None => false end.

Definition is_file (p : path) (root : node) : bool :=
  match lookup p root with Some (File _) => true | _ => false end.

Definition is_dir (p : path) (root : node) : bool :=
  match lookup p root with Some (Dir _) => true | _ => false end.

(** The children of the directory at [here], as paths. *)
Definition children (here : path) (es : list (string * node)) : list path :=
  map (fun e => here ++ [fst e]) es.

(** [d.iterdir()], consumed in full: [NotADirectoryError] or
    [FileNotFoundError] when [d] is not a directory. *)
Definition iterdir (d : path) (root : node) : exn + list path :=
  match lookup d root with
  | Some (Dir es) => inr (children d es)
  | _ => inl OSError
  end.

(** Everything below the directory [n] found at [here], in the order of
    [rglob]: the directories in pre-order, each one contributing all of its
    children. *)
Fixpoint descendants (here : path) (n : node) : list path :=
  match n with
  | File _ => []
  | Dir es =>
      children here es
      ++ (fix below (l : list (string * node)) : list path :=
            match l with
            | [] => []
            | (c, m) :: l' => descendants (here ++ [c]) m ++ below l'
            end) es
  end.

(** [d.rglob('*')], consumed in full; nothing when [d] is not a directory. *)
Definition rglob_star (d : path) (root : node) : list path :=
  match lookup d root with
  | Some n => descendants d n
  | None => []
  end.

(** [d.rglob('*.json')]: the pattern is matched against the final
    component, case-sensitively as on POSIX. *)
Definition rglob_json (d : path) (root : node) : list path :=
  filter (fun p => Str.endswith ".json" (name p)) (rglob_star d root).

(** [open(p, 'rb').read()] *)
Definition read_file (p : path) (root : node) : exn + bytes :=
  match lookup p root with
  | Some (File data) => inr data
  | _ => inl OSError
  end.

(** [open(p, 'wb').write(data)] below the node [n] ([None]: nothing
    there): the file is created or replaced; [OSError] when [p] is a
    directory or when its parent is not an existing directory. *)
Fixpoint write_at (p : path) (data : bytes) (n : option node) : exn + node :=
  match p with
  | [] =>
      match n with
      | Some (Dir _) => inl OSError
      | _ => inr (File data)
      end
  | c :: p' =>
      match n with
      | Some (Dir es) =>
          match write_at p' data (entry_find c es) with
          | inr m => inr (Dir (entry_set c m es))
          | inl e => inl e
          end
      | _ => inl OSError
      end
  end.

Definition write_file (p : path) (data : bytes) (root : node) : exn + node :=
  write_at p data (Some root).

(** [p.mkdir(parents=True, exist_ok=True)] below the node [n]: missing
    directories are created; [OSError] when a component of [p] is a regular
    file. *)
Fixpoint mkdir_at (p : path) (n : option node) : exn + node :=
  match n with
  | Some (File _) => inl OSError
  | Some (Dir es) =>
      match p with
      | [] => inr (Dir es)
      | c :: p' =>
          match mkdir_at p' (entry_find c es) with
          | inr m => inr (Dir (entry_set c m es))
          | inl e => inl e
          end
      end
  | None =>
      match p with
      | [] => inr (Dir [])
      | c :: p' =>
          match mkdir_at p' None with
          | inr m => inr (Dir [(c, m)])
          | inl e => inl e
          end
      end
  end.

Definition mkdir_parents (p : path) (root : node) : exn + node :=
  mkdir_at p (Some root).

(** Where [shutil.copy2(src, dst)] writes: inside [dst] under the name of
    [src] when [dst] is a directory, else [dst] itself. *)
Definition copy2_target (src dst : path) (root : node) : path :=
  if is_dir dst root then dst ++ [name src] else dst.

(** [shutil.copy2(src, dst)]: [SameFileError] when source and target are
    the same file, else the bytes of [src] are written to the target. *)
Definition copy2 (src dst : path) (root : node) : exn + node :=
  let target := copy2_target src dst root in
  if list_eq_dec string_dec src target then inl OSError
  else
    match read_file src root with
    | inr data => write_file target data root
    | inl e => inl e
    end.

End FileSystem.
Export FileSystem.

(** ** JSON values and Python dictionaries *)

Module Json.

(** What [json.load] returns and [json.dump] accepts.  A dictionary keeps
    its items in insertion order. *)
Inductive json :=
| JNull
| JBool (b : bool)
| JInt (n : Z)
| JFloat (x : Q)
| JStr (s : string)
| JList (l : list json)
| JDict (items : list (string * json)).

(** [d[k]] for a dictionary's items. *)
Fixpoint dict_get (k : string) (items : list (string * json)) : option json :=
  match items with
  | [] => None
  | (k', v) :: items' => if String.eqb k' k then Some v else dict_get k items'
  end.

(** [d[k] = v]: an existing key keeps its position. *)
Fixpoint dict_set (k : string) (v : json) (items : list (string * json))
  : list (string * json) :=
  match items with
  | [] => [(k, v)]
  | (k', v') :: items' =>
      if String.eqb k' k then (k', v) :: items'
      else (k', v') :: dict_set k v items'
  end.

(** [obj[k] = v] with a string key: [TypeError] unless [obj] is a
    dictionary. *)
Definition setitem (obj : json) (k : string) (v : json) : exn + json :=
  match obj with
  | JDict items => inr (JDict (dict_set k v items))
  | _ => inl TypeError
  end.

(** [obj[k]] read back, for stating properties of written documents. *)
Definition getitem (obj : json) (k : string) : option json :=
  match obj with
  | JDict items => dict_get k items
  | _ => None
  end.

End Json.
Export Json.

(** ** The libraries behind the tool

    PIL, the [json] module and the text layer of [open] are taken as given:
    the tool only moves their results around. *)

Class Runtime := {
  (** [PIL.Image.Image] *)
  Image : Type;
  (** [Image.open] on the bytes of the file; an exception on bytes that are
      not an image. *)
  Image_open : bytes -> exn + Image;
  Image_mode : Image -> string;
  (** [image.convert(mode)] *)
  Image_convert : Image -> string -> exn + Image;
  Image_width : Image -> Z;
  Image_height : Image -> Z;
  (** What [image.save(path, 'PNG')] writes. *)
  Image_save_png : Image -> exn + bytes;
  (** What [json.dump(obj, f, indent=2)] writes to a file opened with ['w']. *)
  json_dump : json -> bytes;
  (** [json.load(f)] on a file opened with ['r']. *)
  json_load : bytes -> exn + json;
  (** [f.read()] on a file opened with ['r']: the decoded text. *)
  text_decode : bytes -> exn + string;
  (** What [f.write(s)] writes to a file opened with ['w']. *)
  text_encode : string -> bytes;
}.

(** ** The processors and the extensions they declare *)

(** The four subclasses of [AssetProcessor] that the cooker instantiates. *)
Inductive AssetProcessor :=
| TextureProcessor
| ModelProcessor
| AudioProcessor
| ShaderProcessor.

(** [self.supported_extensions], as set by each [__init__]. *)
Definition supported_extensions (self : AssetProcessor) : list string :=
  match self with
  | TextureProcessor => [".png"; ".jpg"; ".jpeg"; ".bmp"; ".tga"]
  | ModelProcessor => [".obj"; ".gltf"; ".glb"; ".fbx"]
  | AudioProcessor => [".wav"; ".mp3"; ".ogg"; ".flac"]
  | ShaderProcessor => [".vert"; ".frag"; ".geom"; ".tesc"; ".tese"; ".comp"]
  end.

(** [AssetProcessor.can_process] *)
Definition can_process (self : AssetProcessor) (file_path : path) : bool :=
  Str.mem (Str.lower (suffix file_path)) (supported_extensions self).

(** [AssetCooker.processors], as set by [AssetCooker.__init__]. *)
Definition processors : list AssetProcessor :=
  [TextureProcessor; ModelProcessor; AudioProcessor; ShaderProcessor].

(** [AssetCooker.get_processor]: the first processor of the list that can
    process the file. *)
Definition get_processor (file_path : path) : option AssetProcessor :=
  find (fun processor => can_process processor file_path) processors.

(** ** The state of a run and its monad *)

Module IO.

(** The lines the tool prints. *)
Inductive line :=
| Processed (kind : string) (input_path output_path : path)
    (* Processed <kind>: <input_path> -> <output_path> *)
| ErrorProcessing (kind : string) (input_path : path) (e : exn)
    (* Error processing <kind> <input_path>: <e> *)
| NoProcessorFound (input_path : path)
    (* No processor found for: <input_path> *)
| InputDirectoryDoesNotExist (input_dir : path)
    (* Input directory does not exist: <input_dir> *)
| Processing (file_path : path)
    (* Processing: <file_path> *)
| ErrorReadingMetadata (metadata_file : path) (e : exn)
    (* Error reading metadata <metadata_file>: <e> *)
| GeneratedAssetManifest (manifest_path : path)
    (* Generated asset manifest: <manifest_path> *)
| ErrorGeneratingAssetManifest (e : exn)
    (* Error generating asset manifest: <e> *)
| ProcessingSingleFile (input_path : path)
| AssetCookedSuccessfully
| FailedToCookAsset
| ProcessingDirectory (input_path : path)
| ProcessingComplete
| SuccessfullyProcessed (processed : nat)
| FailedToProcess (failed : nat)
| WarningFailed (failed : nat)
| ErrorInputPathDoesNotExist (input_path : path).

(** The file tree, what was printed so far (oldest first) and, as a ghost
    record, the calls [processor.process(input_path, output_path)] made so
    far. *)
Record world := World {
  fs : node;
  stdout : list line;
  calls : list (AssetProcessor * path * path);
}.

(** A computation returns a value or raises, and leaves a state. *)
Definition io (A : Type) : Type := world -> (exn + A) * world.

Definition ret {A} (a : A) : io A := fun w => (inr a, w).

Definition raise {A} (e : exn) : io A := fun w => (inl e, w).

Definition bind {A B} (m : io A) (k : A -> io B) : io B :=
  fun w =>
    match m w with
    | (inr a, w') => k a w'
    | (inl e, w') => (inl e, w')
    end.

(** [try: body  except Exception as e: handler(e)] *)
Definition try_except {A} (body : io A) (handler : exn -> io A) : io A :=
  fun w =>
    match body w with
    | (inr a, w') => (inr a, w')
    | (inl e, w') => handler e w'
    end.

(** A pure step that may raise. *)
Definition lift {A} (r : exn + A) : io A :=
  match r with
  | inr a => ret a
  | inl e => raise e
  end.

(** A file operation: the tree is replaced on success and kept on failure. *)
Definition on_fs (op : node -> exn + node) : io unit :=
  fun w =>
    match op (fs w) with
    | inr t => (inr tt, World t (stdout w) (calls w))
    | inl e => (inl e, w)
    end.

Definition get_fs : io node := fun w => (inr (fs w), w).

Definition print (l : line) : io unit :=
  fun w => (inr tt, World (fs w) (stdout w ++ [l]) (calls w)).

Definition record_call (processor : AssetProcessor)
    (input_path output_path : path) : io unit :=
  fun w =>
    (inr tt,
     World (fs w) (stdout w) (calls w ++ [(processor, input_path, output_path)])).

End IO.
Export IO.

Declare Scope io_scope.
Delimit Scope io_scope with io.
Notation "x <- m ;; k" := (bind m (fun x => k))
  (at level 100, m at next level, right associativity) : io_scope.
Notation "m ;; k" := (bind m (fun _ => k))
  (at level 100, right associativity) : io_scope.

Local Open Scope io_scope.

(** ** The processors *)

Section Processors.

Context `{R : Runtime}.

(** [TextureProcessor.process] *)
Definition TextureProcessor_process (input_path output_path : path) : io bool :=
  try_except
    (root <- get_fs ;;
     data <- lift (read_file input_path root) ;;
     image <- lift (Image_open data) ;;
     image <- (if negb (String.eqb (Image_mode image) "RGBA")
               then lift (Image_convert image "RGBA") else ret image) ;;
     on_fs (mkdir_parents (parent output_path)) ;;
     png <- lift (Image_save_png image) ;;
     on_fs (write_file output_path png) ;;
     let metadata :=
       JDict [("type", JStr "texture");
              ("format", JStr "rgba8");
              ("width", JInt (Image_width image));
              ("height", JInt (Image_height image));
              ("channels", JInt 4);
              ("mipmaps", JBool true);
              ("source", JStr (str input_path))] in
     metadata_path <- lift (with_suffix output_path ".json") ;;
     on_fs (write_file metadata_path (json_dump metadata)) ;;
     print (Processed "texture" input_path output_path) ;;
     ret true)
    (fun e => print (ErrorProcessing "texture" input_path e) ;; ret false).

(** The metadata of a model: [input_path.suffix.lower()[1:]] is the
    format. *)
Definition model_metadata (input_path : path) : json :=
  JDict [("type", JStr "model");
         ("format", JStr (Str.drop 1 (Str.lower (suffix input_path))));
         ("source", JStr (str input_path));
         ("animations", JList []);
         ("materials", JList []);
         ("meshes", JList [])].

(** [ModelProcessor.process] *)
Definition ModelProcessor_process (input_path output_path : path) : io bool :=
  try_except
    (on_fs (mkdir_parents (parent output_path)) ;;
     on_fs (copy2 input_path output_path) ;;
     let metadata := model_metadata input_path in
     metadata_path <- lift (with_suffix output_path ".json") ;;
     on_fs (write_file metadata_path (json_dump metadata)) ;;
     print (Processed "model" input_path output_path) ;;
     ret true)
    (fun e => print (ErrorProcessing "model" input_path e) ;; ret false).

(** The metadata of an audio file. *)
Definition audio_metadata (input_path : path) : json :=
  JDict [("type", JStr "audio");
         ("format", JStr (Str.drop 1 (Str.lower (suffix input_path))));
         ("source", JStr (str input_path));
         ("duration", JFloat 0);
         ("channels", JInt 0);
         ("sample_rate", JInt 0);
         ("bit_depth", JInt 0)].

(** [AudioProcessor.process] *)
Definition AudioProcessor_process (input_path output_path : path) : io bool :=
  try_except
    (on_fs (mkdir_parents (parent output_path)) ;;
     on_fs (copy2 input_path output_path) ;;
     let metadata := audio_metadata input_path in
     metadata_path <- lift (with_suffix output_path ".json") ;;
     on_fs (write_file metadata_path (json_dump metadata)) ;;
     print (Processed "audio" input_path output_path) ;;
     ret true)
    (fun e => print (ErrorProcessing "audio" input_path e) ;; ret false).

(** [type_map] of [ShaderProcessor._get_shader_type] *)
Definition type_map : list (string * string) :=
  [(".vert", "vertex");
   (".frag", "fragment");
   (".geom", "geometry");
   (".tesc", "tessellation_control");
   (".tese", "tessellation_evaluation");
   (".comp", "compute")].

(** [d.get(k, default)] *)
Fixpoint get_default (k : string) (d : list (string * string)) (default : string)
  : string :=
  match d with
  | [] => default
  | (k', v) :: d' => if String.eqb k' k then v else get_default k d' default
  end.

(** [ShaderProcessor._get_shader_type] *)
Definition _get_shader_type (extension : string) : string :=
  get_default (Str.lower extension) type_map "unknown".

(** The metadata of a shader. *)
Definition shader_metadata (input_path : path) : json :=
  let shader_type := _get_shader_type (suffix input_path) in
  JDict [("type", JStr "shader");
         ("shader_type", JStr shader_type);
         ("source", JStr (str input_path));
         ("defines", JList []);
         ("includes", JList [])].

(** [ShaderProcessor.process] *)
Definition ShaderProcessor_process (input_path output_path : path) : io bool :=
  try_except
    (root <- get_fs ;;
     data <- lift (read_file input_path root) ;;
     source <- lift (text_decode data) ;;
     on_fs (mkdir_parents (parent output_path)) ;;
     on_fs (write_file output_path (text_encode source)) ;;
     let metadata := shader_metadata input_path in
     metadata_path <- lift (with_suffix output_path ".json") ;;
     on_fs (write_file metadata_path (json_dump metadata)) ;;
     print (Processed "shader" input_path output_path) ;;
     ret true)
    (fun e => print (ErrorProcessing "shader" input_path e) ;; ret false).

(** [processor.process(input_path, output_path)], by the class of
    [processor]. *)
Definition process (processor : AssetProcessor) : path -> path -> io bool :=
  match processor with
  | TextureProcessor => TextureProcessor_process
  | ModelProcessor => ModelProcessor_process
  | AudioProcessor => AudioProcessor_process
  | ShaderProcessor => ShaderProcessor_process
  end.

End Processors.

(** ** The cooker *)

Section AssetCooker.

Context `{R : Runtime}.

(** [AssetCooker.cook_asset]; the call of [processor.process] is recorded
    in [calls]. *)
Definition cook_asset (input_path output_path : path) : io bool :=
  match get_processor input_path with
  | None => print (NoProcessorFound input_path) ;; ret false
  | Some processor =>
      record_call processor input_path output_path ;;
      process processor input_path output_path
  end.

(** The loop of [cook_directory] over the list [files], with the two
    counters. *)
Fixpoint cook_files (input_dir output_dir : path) (files : list path)
    (processed_count failed_count : nat) : io (nat * nat) :=
  match files with
  | [] => ret (processed_count, failed_count)
  | file_path :: files' =>
      rel_path <- lift (relative_to file_path input_dir) ;;
      let output_path := joinpath output_dir rel_path in
      if String.eqb (suffix file_path) ".json"
      then cook_files input_dir output_dir files' processed_count failed_count
      else
        print (Processing file_path) ;;
        ok <- cook_asset file_path output_path ;;
        if ok : bool
        then cook_files input_dir output_dir files' (S processed_count) failed_count
        else cook_files input_dir output_dir files' processed_count (S failed_count)
  end.

(** The list [files] of [cook_directory]: the regular files among
    [input_dir.rglob('*')] or [input_dir.iterdir()]. *)
Definition list_files (input_dir : path) (recursive : bool) (root : node)
  : exn + list path :=
  if recursive
  then inr (filter (fun f => is_file f root) (rglob_star input_dir root))
  else
    match iterdir input_dir root with
    | inr l => inr (filter (fun f => is_file f root) l)
    | inl e => inl e
    end.

(** [AssetCooker.cook_directory] *)
Definition cook_directory (input_dir output_dir : path) (recursive : bool)
  : io (nat * nat) :=
  root <- get_fs ;;
  if negb (exists_ input_dir root)
  then print (InputDirectoryDoesNotExist input_dir) ;; ret (0, 0)%nat
  else
    files <- lift (list_files input_dir recursive root) ;;
    cook_files input_dir output_dir files 0 0.

(** The body of the inner [try] of [generate_asset_manifest]: the record
    read from one metadata file, with its [path] added. *)
Definition read_metadata (output_dir metadata_file : path) : io json :=
  root <- get_fs ;;
  data <- lift (read_file metadata_file root) ;;
  metadata <- lift (json_load data) ;;
  asset_file <- lift (with_suffix metadata_file "") ;;
  rel <- lift (relative_to asset_file output_dir) ;;
  lift (setitem metadata "path" (JStr (str rel))).

(** The loop of [generate_asset_manifest] over the metadata files found,
    extending the list [assets]. *)
Fixpoint collect_assets (output_dir : path) (metadata_files : list path)
    (assets : list json) : io (list json) :=
  match metadata_files with
  | [] => ret assets
  | metadata_file :: rest =>
      if String.eqb (name metadata_file) "manifest.json"
      then collect_assets output_dir rest assets
      else
        assets' <-
          try_except
            (metadata <- read_metadata output_dir metadata_file ;;
             ret (assets ++ [metadata]))
            (fun e => print (ErrorReadingMetadata metadata_file e) ;; ret assets) ;;
        collect_assets output_dir rest assets'
  end.

(** The manifest document. *)
Definition make_manifest (assets : list json) : json :=
  JDict [("version", JStr "1.0");
         ("asset_count", JInt (Z.of_nat (List.length assets)));
         ("assets", JList assets)].

(** [AssetCooker.generate_asset_manifest] *)
Definition generate_asset_manifest (output_dir : path) : io bool :=
  try_except
    (root <- get_fs ;;
     assets <- collect_assets output_dir (rglob_json output_dir root) [] ;;
     let manifest := make_manifest assets in
     let manifest_path := joinpath output_dir ["manifest.json"] in
     on_fs (write_file manifest_path (json_dump manifest)) ;;
     print (GeneratedAssetManifest manifest_path) ;;
     ret true)
    (fun e => print (ErrorGeneratingAssetManifest e) ;; ret false).

(** The parsed command line. *)
Record Args := {
  input : path;
  output : path;
  recursive : bool;
  generate_manifest : bool;
  force : bool;
  verbose : bool;
}.

(** [main], returning the exit status: [sys.exit(1)] is status 1, reaching
    the end is status 0. *)
Definition main (args : Args) : io nat :=
  let input_path := input args in
  let output_path := output args in
  root <- get_fs ;;
  if is_file input_path root then
    (if verbose args then print (ProcessingSingleFile input_path) else ret tt) ;;
    success <- cook_asset input_path output_path ;;
    if success : bool
    then print AssetCookedSuccessfully ;; ret 0%nat
    else print FailedToCookAsset ;; ret 1%nat
  else if is_dir input_path root then
    (if verbose args then print (ProcessingDirectory input_path) else ret tt) ;;
    counts <- cook_directory input_path output_path (recursive args) ;;
    let '(processed, failed) := counts in
    print ProcessingComplete ;;
    print (SuccessfullyProcessed processed) ;;
    print (FailedToProcess failed) ;;
    (if generate_manifest args
     then _ <- generate_asset_manifest output_path ;; ret tt
     else ret tt) ;;
    if (0 <? failed)%nat
    then print (WarningFailed failed) ;; ret 1%nat
    else ret 0%nat
  else
    print (ErrorInputPathDoesNotExist input_path) ;; ret 1%nat.

End AssetCooker.

(** ** Notions used in the statements *)

(** What is at [p] below a node that may be absent. *)
Definition lookup_below (p : path) (o : option node) : option node :=
  match o with
  | Some n => lookup p n
  | None => None
  end.

(** The test of [cook_directory] for a file it does not skip. *)
Definition not_metadata (file_path : path) : bool :=
  negb (String.eqb (suffix file_path) ".json").

(** The call [processor.process(file_path, output_path)] that the walk makes
    for [file_path], if it makes one. *)
Definition call_for (input_dir output_dir file_path : path)
  : list (AssetProcessor * path * path) :=
  match get_processor file_path, relative_to file_path input_dir with
  | Some processor, inr rel_path =>
      [(processor, file_path, joinpath output_dir rel_path)]
  | _, _ => []
  end.

(** The input path and the output path of a recorded call. *)
Definition call_input (c : AssetProcessor * path * path) : path := snd (fst c).
Definition call_output (c : AssetProcessor * path * path) : path := snd c.

(** A computation that never raises. *)
Definition returns {A} (m : io A) : Prop :=
  forall w, exists a w', m w = (inr a, w').

(** A computation that calls no processor. *)
Definition keeps_calls {A} (m : io A) : Prop :=
  forall w r w', m w = (r, w') -> calls w' = calls w.

(** [open(p, 'rb').read()] below a node that may be absent. *)
Definition read_below (p : path) (o : option node) : exn + bytes :=
  match lookup_below p o with
  | Some (File data) => inr data
  | _ => inl OSError
  end.

(** The record that [generate_asset_manifest] reads from one metadata file:
    what [read_metadata] returns, as a function of the file tree. *)
Definition metadata_record `{R : Runtime} (output_dir metadata_file : path)
    (root : node) : exn + json :=
  match read_file metadata_file root with
  | inl e => inl e
  | inr data =>
      match json_load data with
      | inl e => inl e
      | inr metadata =>
          match with_suffix metadata_file "" with
          | inl e => inl e
          | inr asset_file =>
              match relative_to asset_file output_dir with
              | inl e => inl e
              | inr rel => setitem metadata "path" (JStr (str rel))
              end
          end
      end
  end.

(** The records that the loop of [generate_asset_manifest] appends for a
    list of metadata files, as a function of the file tree. *)
Fixpoint aggregated `{R : Runtime} (output_dir : path) (root : node)
    (metadata_files : list path) : list json :=
  match metadata_files with
  | [] => []
  | metadata_file :: rest =>
      if String.eqb (name metadata_file) "manifest.json"
      then aggregated output_dir root rest
      else
        match metadata_record output_dir metadata_file root with
        | inr metadata => metadata :: aggregated output_dir root rest
        | inl _ => aggregated output_dir root rest
        end
  end.

(** A computation that creates, changes or removes no regular file except
    at the directory [d] and below: every other path reads as before. *)
Definition writes_below {A} (d : path) (m : io A) : Prop :=
  forall w r w',
    m w = (r, w') ->
    forall q, (forall rel, q <> d ++ rel) -> read_file q (fs w') = read_file q (fs w).

(** The [type] that each processor records in its metadata. *)
Definition recorded_type (processor : AssetProcessor) : string :=
  match processor with
  | TextureProcessor => "texture"
  | ModelProcessor => "model"
  | AudioProcessor => "audio"
  | ShaderProcessor => "shader"
  end.

(** ** A runtime and trees to run the model on *)

Module Example.

(** The double quote. *)
Definition quote : string := String (ascii_of_nat 34) "".

(** A compact rendering of a JSON value. *)
Fixpoint dump (j : json) : string :=
  match j with
  | JNull => "null"
  | JBool true => "true"
  | JBool false => "false"
  | JInt n => NilZero.string_of_int (Z.to_int n)
  | JFloat x =>
      if Pos.eqb (Qden x) 1
      then (NilZero.string_of_int (Z.to_int (Qnum x)) ++ ".0")%string
      else (NilZero.string_of_int (Z.to_int (Qnum x)) ++ "/"
            ++ NilZero.string_of_uint (Pos.to_uint (Qden x)))%string
  | JStr s => (quote ++ s ++ quote)%string
  | JList l =>
      ("["
       ++ (fix items (l : list json) : string :=
             match l with
             | [] => ""
             | [x] => dump x
             | x :: l' => dump x ++ ", " ++ items l'
             end) l
       ++ "]")%string
  | JDict d =>
      ("{"
       ++ (fix items (d : list (string * json)) : string :=
             match d with
             | [] => ""
             | [(k, v)] => quote ++ k ++ quote ++ ": " ++ dump v
             | (k, v) :: d' =>
                 quote ++ k ++ quote ++ ": " ++ dump v ++ ", " ++ items d'
             end) d
       ++ "}")%string
  end.

(** A loader that knows the empty object and the empty array, and rejects
    every other text. *)
Definition load (data : bytes) : exn + json :=
  if String.eqb data "{}" then inr (JDict [])
  else if String.eqb data "[]" then inr (JList [])
  else inl ValueError.

(** Images are kept as their bytes; every non-empty file is a 64 by 64 RGB
    picture. *)
#[global] Instance runtime : Runtime := {
  Image := bytes;
  Image_open := fun data => if String.eqb data "" then inl OSError else inr data;
  Image_mode := fun _ => "RGB";
  Image_convert := fun image _ => inr image;
  Image_width := fun _ => 64%Z;
  Image_height := fun _ => 64%Z;
  Image_save_png := fun image => inr ("PNG" ++ image)%string;
  json_dump := dump;
  json_load := load;
  text_decode := fun data => inr data;
  text_encode := fun s => s;
}.

(** An input tree with one file of each category, an unknown extension, a
    metadata file and a subdirectory, next to an empty output directory. *)
Definition assets : node :=
  Dir [("a.png", File "pixels");
       ("b.frag", File "void main() {}");
       ("c.xyz", File "?");
       ("notes.json", File "{}");
       ("models", Dir [("m.OBJ", File "v 0 0 0"); ("s.wav", File "RIFF")])].

Definition tree : node := Dir [("assets", assets); ("cooked", Dir [])].

Definition start : world := World tree [] [].

(** An input directory that holds one metadata file only. *)
Definition notes_only : world :=
  World (Dir [("assets", Dir [("notes.json", File "{}")])]) [] [].

(** A model next to an output directory that exists already. *)
Definition flat : world :=
  World (Dir [("m.obj", File "v 0 0 0"); ("cooked", Dir [])]) [] [].

(** An output directory whose only metadata file is [manifest.json.json],
    as cooking [manifest.json.obj] leaves it. *)
Definition odd : world :=
  World (Dir [("out", Dir [("manifest.json.json", File "{}")])]) [] [].

(** An output directory with a metadata file that does not parse between
    two that do. *)
Definition damaged : world :=
  World (Dir [("out", Dir [("a.json", File "{}");
                           ("b.json", File "{ not json");
                           ("c.json", File "{}")])]) [] [].

(** An output directory with a metadata file that holds a JSON list. *)
Definition listed : world :=
  World (Dir [("out", Dir [("l.json", File "[]")])]) [] [].

End Example.

(** * Properties *)

(** ** Strings and paths *)

Section StrFacts.

Lemma lower_ascii_idem (c : ascii) :
  Str.lower_ascii (Str.lower_ascii c) = Str.lower_ascii c.
Proof. destruct c as [[] [] [] [] [] [] [] []]; reflexivity. Qed.

Lemma lower_ascii_dot (c : ascii) :
  Ascii.eqb (Str.lower_ascii c) "." = Ascii.eqb c ".".
Proof. destruct c as [[] [] [] [] [] [] [] []]; reflexivity. Qed.

Lemma lower_idem (s : string) : Str.lower (Str.lower s) = Str.lower s.
Proof.
  induction s as [|c s IH]; simpl; [reflexivity|].
  now rewrite lower_ascii_idem, IH.
Qed.

Lemma lower_length (s : string) : String.length (Str.lower s) = String.length s.
Proof. induction s; simpl; congruence. Qed.

Lemma rfind_dot_lower (s : string) : Str.rfind "." (Str.lower s) = Str.rfind "." s.
Proof.
  induction s as [|c s IH]; simpl; [reflexivity|].
  rewrite IH. destruct (Str.rfind "." s); [reflexivity|].
  now rewrite lower_ascii_dot.
Qed.

Lemma append_empty_r (s : string) : (s ++ "")%string = s.
Proof. induction s; simpl; congruence. Qed.

Lemma drop_length (i : nat) (s : string) :
  String.length (Str.drop i s) = String.length s - i.
Proof.
  revert s; induction i as [|i IH]; intros [|a s]; simpl; auto.
Qed.

(** Lowering a string from position [i] on moves no dot and keeps the
    length. *)
Lemma rfind_dot_lower_from (i : nat) (s : string) :
  Str.rfind "." (Str.take i s ++ Str.lower (Str.drop i s))%string = Str.rfind "." s.
Proof.
  revert s; induction i as [|i IH]; intros s.
  - simpl. apply rfind_dot_lower.
  - destruct s as [|a s]; simpl; [reflexivity|]. now rewrite IH.
Qed.

Lemma length_lower_from (i : nat) (s : string) :
  String.length (Str.take i s ++ Str.lower (Str.drop i s))%string = String.length s.
Proof.
  revert s; induction i as [|i IH]; intros s.
  - simpl. apply lower_length.
  - destruct s as [|a s]; simpl; [reflexivity|]. now rewrite IH.
Qed.

Lemma drop_lower_from (i : nat) (s : string) :
  Str.drop i (Str.take i s ++ Str.lower (Str.drop i s))%string
  = Str.lower (Str.drop i s).
Proof.
  revert s; induction i as [|i IH]; intros s.
  - reflexivity.
  - destruct s as [|a s]; simpl; [reflexivity|]. apply IH.
Qed.

(** The suffix of a name whose suffix was replaced by its lower-case form. *)
Lemma suffix_of_name_lowered (n : string) :
  let s := suffix_of_name n in
  suffix_of_name
    (if String.eqb s "" then n ++ Str.lower s
     else Str.take (String.length n - String.length s) n ++ Str.lower s)%string
  = Str.lower s.
Proof.
  intros s. destruct (String.eqb s "") eqn:Es.
  - apply String.eqb_eq in Es. rewrite Es. simpl. rewrite append_empty_r.
    exact Es.
  - apply String.eqb_neq in Es. subst s. unfold suffix_of_name in *.
    destruct (Str.rfind "." n) as [i|] eqn:Ei; [|congruence].
    destruct ((0 <? i)%nat && (S i <? String.length n)%nat) eqn:Ec; [|congruence].
    apply andb_prop in Ec. destruct Ec as [E0 E1].
    apply Nat.ltb_lt in E0. apply Nat.ltb_lt in E1.
    rewrite drop_length.
    replace (String.length n - (String.length n - i)) with i by lia.
    rewrite rfind_dot_lower_from, Ei, length_lower_from.
    replace ((0 <? i)%nat && (S i <? String.length n)%nat) with true
      by (symmetry; apply andb_true_intro; split; apply Nat.ltb_lt; lia).
    apply drop_lower_from.
Qed.

Lemma name_snoc (p : path) (c : string) : name (p ++ [c]) = c.
Proof. unfold name. apply last_last. Qed.

Lemma relative_to_joinpath (base rest : path) :
  relative_to (base ++ rest) base = inr rest.
Proof.
  induction base as [|c base IH]; simpl; [reflexivity|].
  now rewrite String.eqb_refl.
Qed.

Lemma relative_to_inv (p base rel : path) :
  relative_to p base = inr rel -> p = base ++ rel.
Proof.
  revert p; induction base as [|c base IH]; intros p; simpl.
  - congruence.
  - destruct p as [|c' p]; [discriminate|].
    destruct (String.eqb c c') eqn:E; [|discriminate].
    apply String.eqb_eq in E. subst c'. intros H. f_equal. now apply IH.
Qed.

End StrFacts.

(** ** The registry *)

(** The processor found depends on the path through the lower-case form of
    its suffix only. *)
Lemma get_processor_lower_suffix (p q : path) :
  Str.lower (suffix q) = Str.lower (suffix p) -> get_processor q = get_processor p.
Proof.
  intros H. unfold get_processor, can_process. now rewrite H.
Qed.

(** C4. Resolution depends only on the case-folded extension: two paths whose
    suffixes agree up to case resolve alike; [p] with its suffix lower-cased,
    which is [p.with_suffix(p.suffix.lower())], has that lower-case suffix
    and resolves as [p] does; [TEXTURE.PNG] and [texture.png] both resolve to
    the texture processor. *)
Theorem get_processor_case_insensitive (p : path) :
  (forall q, Str.lower (suffix q) = Str.lower (suffix p) ->
             get_processor q = get_processor p)
  /\ (forall p', with_suffix p (Str.lower (suffix p)) = inr p' ->
                 suffix p' = Str.lower (suffix p)
                 /\ get_processor p' = get_processor p)
  /\ get_processor ["TEXTURE.PNG"] = Some TextureProcessor
  /\ get_processor ["texture.png"] = Some TextureProcessor.
Proof.
  split; [|split; [|split; reflexivity]].
  - intros q. apply get_processor_lower_suffix.
  - intros p' H.
    assert (Hs : suffix p' = Str.lower (suffix p)).
    { unfold with_suffix in H.
      destruct (Str.contains "/" (Str.lower (suffix p))); [discriminate|].
      destruct (_ || _); [discriminate|].
      destruct (String.eqb (name p) ""); [discriminate|].
      injection H as <-. unfold suffix at 1. rewrite name_snoc.
      apply suffix_of_name_lowered. }
    split; [exact Hs|].
    apply get_processor_lower_suffix. rewrite Hs. apply lower_idem.
Qed.

(** C4 at [dir/TEXTURE.PNG]. *)
Lemma get_processor_case_insensitive_witness :
  suffix ["dir"; "TEXTURE.png"] = ".png"
  /\ get_processor ["dir"; "TEXTURE.png"] = get_processor ["dir"; "TEXTURE.PNG"].
Proof.
  apply (proj1 (proj2 (get_processor_case_insensitive ["dir"; "TEXTURE.PNG"]))).
  reflexivity.
Defined.

(** ** The monad *)

Section IoFacts.

Context {A B : Type}.

Lemma keeps_calls_ret (a : A) : keeps_calls (ret a).
Proof. intros w r w' H. now inversion H. Qed.

Lemma keeps_calls_raise (e : exn) : keeps_calls (@raise A e).
Proof. intros w r w' H. now inversion H. Qed.

Lemma keeps_calls_lift (r : exn + A) : keeps_calls (lift r).
Proof. destruct r; [apply keeps_calls_raise | apply keeps_calls_ret]. Qed.

Lemma keeps_calls_bind (m : io A) (k : A -> io B) :
  keeps_calls m -> (forall a, keeps_calls (k a)) -> keeps_calls (bind m k).
Proof.
  intros Hm Hk w r w'. unfold bind.
  destruct (m w) as [[e|a] w1] eqn:E; intros H.
  - inversion H; subst. eapply Hm; eauto.
  - rewrite (Hk a _ _ _ H). eapply Hm; eauto.
Qed.

Lemma keeps_calls_try_except (body : io A) (handler : exn -> io A) :
  keeps_calls body -> (forall e, keeps_calls (handler e)) ->
  keeps_calls (try_except body handler).
Proof.
  intros Hm Hk w r w'. unfold try_except.
  destruct (body w) as [[e|a] w1] eqn:E; intros H.
  - rewrite (Hk e _ _ _ H). eapply Hm; eauto.
  - inversion H; subst. eapply Hm; eauto.
Qed.

Lemma returns_try_except (body : io A) (handler : exn -> io A) :
  (forall e, returns (handler e)) -> returns (try_except body handler).
Proof.
  intros Hh w. unfold try_except.
  destruct (body w) as [[e|a] w1]; [apply Hh | eauto].
Qed.

End IoFacts.

Lemma keeps_calls_on_fs (op : node -> exn + node) : keeps_calls (on_fs op).
Proof.
  intros w r w'. unfold on_fs. destruct (op (fs w)); intros H; now inversion H.
Qed.

Lemma keeps_calls_get_fs : keeps_calls get_fs.
Proof. intros w r w' H. now inversion H. Qed.

Lemma keeps_calls_print (l : line) : keeps_calls (print l).
Proof. intros w r w' H. now inversion H. Qed.

Lemma returns_print_ret {A} (l : line) (a : A) : returns (print l ;; ret a).
Proof. intros w. unfold bind, print, ret. eauto. Qed.

Create HintDb io_frame.
#[local] Hint Resolve keeps_calls_ret keeps_calls_raise keeps_calls_lift
  keeps_calls_on_fs keeps_calls_get_fs keeps_calls_print
  : io_frame.

(** Walks through a computation built from the steps above. *)
Ltac frame :=
  repeat first
    [ apply keeps_calls_try_except; [|intros]
    | apply keeps_calls_bind; [|intros]
    | solve [auto with io_frame]
    | match goal with
      | |- context [if ?b then _ else _] => destruct b
      end ].

(** ** The processors never raise and call no other processor *)

Section ProcessFacts.

Context `{R : Runtime}.

Lemma process_returns (processor : AssetProcessor) (input_path output_path : path) :
  returns (process processor input_path output_path).
Proof.
  destruct processor; apply returns_try_except; intros e; apply returns_print_ret.
Qed.

Lemma process_keeps_calls (processor : AssetProcessor) (input_path output_path : path) :
  keeps_calls (process processor input_path output_path).
Proof.
  destruct processor; simpl;
    unfold TextureProcessor_process, ModelProcessor_process,
      AudioProcessor_process, ShaderProcessor_process; frame.
Qed.

(** What one call of [cook_asset] does to the counters' input: it returns a
    boolean, and records exactly the call it makes. *)
Lemma cook_asset_spec (input_path output_path : path) (w : world) :
  exists b w',
    cook_asset input_path output_path w = (inr b, w')
    /\ calls w' = calls w ++
         match get_processor input_path with
         | Some processor => [(processor, input_path, output_path)]
         | None => []
         end.
Proof.
  unfold cook_asset. destruct (get_processor input_path) as [processor|].
  - unfold bind at 1. unfold record_call at 1.
    destruct (process_returns processor input_path output_path
                (World (fs w) (stdout w)
                   (calls w ++ [(processor, input_path, output_path)])))
      as (b & w' & H).
    exists b, w'. split; [exact H|].
    now rewrite (process_keeps_calls _ _ _ _ _ _ H).
  - exists false. eexists. split; [reflexivity|]. simpl. now rewrite app_nil_r.
Qed.

End ProcessFacts.

(** ** Enumerating a directory *)

(** Induction on a file tree, with the hypothesis for every entry of a
    directory. *)
Lemma node_ind_entries (P : node -> Prop) :
  (forall data, P (File data)) ->
  (forall es, Forall (fun e => P (snd e)) es -> P (Dir es)) ->
  forall n, P n.
Proof.
  intros HF HD. fix IH 1. intros [data|es].
  - apply HF.
  - apply HD. induction es as [|[c m] es IHes]; constructor.
    + apply IH.
    + exact IHes.
Qed.

Lemma children_under (here : path) (es : list (string * node)) (x : path) :
  In x (children here es) -> exists c, x = here ++ [c].
Proof.
  unfold children. rewrite in_map_iff. intros (e & <- & _). eauto.
Qed.

(** Everything [rglob] yields lies strictly below the directory searched. *)
Lemma descendants_under (n : node) :
  forall here x, In x (descendants here n) ->
                 exists rest, x = here ++ rest /\ rest <> [].
Proof.
  induction n as [data|es IH] using node_ind_entries; intros here x; simpl.
  - intros [].
  - rewrite in_app_iff. intros [H|H].
    + apply children_under in H. destruct H as (c & ->).
      exists [c]. split; [reflexivity | discriminate].
    + induction es as [|[c m] es IHes]; [destruct H|].
      inversion IH as [|? ? Hm Hes]; subst.
      apply in_app_iff in H. destruct H as [H|H].
      * apply Hm in H. destruct H as (rest & -> & _).
        exists (c :: rest). split; [now rewrite <- app_assoc | discriminate].
      * now apply IHes.
Qed.

(** Every file of the list that [cook_directory] walks has a path relative
    to the input directory. *)
Lemma list_files_relative (input_dir : path) (recursive : bool) (root : node)
    (files : list path) :
  list_files input_dir recursive root = inr files ->
  Forall (fun f => exists rel, f = input_dir ++ rel /\ rel <> []
                               /\ is_file f root = true) files.
Proof.
  unfold list_files. destruct recursive.
  - intros H. injection H as <-. apply Forall_forall. intros f Hf.
    apply filter_In in Hf. destruct Hf as [Hf Hfile].
    unfold rglob_star in Hf. destruct (lookup input_dir root); [|destruct Hf].
    apply descendants_under in Hf. destruct Hf as (rest & -> & Hne). eauto.
  - unfold iterdir. destruct (lookup input_dir root) as [[|es]|]; try discriminate.
    intros H. injection H as <-. apply Forall_forall. intros f Hf.
    apply filter_In in Hf. destruct Hf as [Hf Hfile].
    apply children_under in Hf. destruct Hf as (c & ->).
    exists [c]. repeat split; [discriminate | exact Hfile].
Qed.

Lemma list_files_directory (input_dir : path) (recursive : bool) (root : node) :
  is_dir input_dir root = true ->
  exists files, list_files input_dir recursive root = inr files.
Proof.
  unfold is_dir, list_files, iterdir.
  destruct (lookup input_dir root) as [[|es]|]; try discriminate.
  destruct recursive; eauto.
Qed.

(** ** The walk *)

Section WalkFacts.

Context `{R : Runtime}.

(** A metadata file is passed over. *)
Lemma cook_files_skip (input_dir output_dir f rel : path) (files : list path)
    (processed_count failed_count : nat) (w : world) :
  relative_to f input_dir = inr rel ->
  String.eqb (suffix f) ".json" = true ->
  cook_files input_dir output_dir (f :: files) processed_count failed_count w
  = cook_files input_dir output_dir files processed_count failed_count w.
Proof.
  intros Hrel Ej. simpl. rewrite Hrel, Ej. reflexivity.
Qed.

(** Any other file is announced, cooked and counted. *)
Lemma cook_files_step (input_dir output_dir f rel : path) (files : list path)
    (processed_count failed_count : nat) (w w1 : world) (ok : bool) :
  relative_to f input_dir = inr rel ->
  String.eqb (suffix f) ".json" = false ->
  cook_asset f (joinpath output_dir rel)
    (World (fs w) (stdout w ++ [Processing f]) (calls w)) = (inr ok, w1) ->
  cook_files input_dir output_dir (f :: files) processed_count failed_count w
  = if ok
    then cook_files input_dir output_dir files (S processed_count) failed_count w1
    else cook_files input_dir output_dir files processed_count (S failed_count) w1.
Proof.
  intros Hrel Ej Hc. simpl. rewrite Hrel, Ej.
  unfold lift, bind at 1, ret at 1, bind at 1, print at 1, bind at 1.
  rewrite Hc. now destruct ok.
Qed.

(** The loop of [cook_directory]: it ends, each file that is not a metadata
    file adds one to exactly one counter, and the calls made are those of
    [call_for], in the order of the list. *)
Lemma cook_files_spec (input_dir output_dir : path) (files : list path) :
  Forall (fun f => exists rel, relative_to f input_dir = inr rel) files ->
  forall processed_count failed_count w,
  exists processed failed w',
    cook_files input_dir output_dir files processed_count failed_count w
    = (inr (processed, failed), w')
    /\ processed + failed
       = processed_count + failed_count + List.length (filter not_metadata files)
    /\ calls w' = calls w
         ++ flat_map (call_for input_dir output_dir) (filter not_metadata files).
Proof.
  induction 1 as [|f files (rel & Hrel) _ IH]; intros p q w.
  - exists p, q, w. simpl. repeat split; [lia | now rewrite app_nil_r].
  - assert (Hf : filter not_metadata (f :: files)
                 = if String.eqb (suffix f) ".json"
                   then filter not_metadata files
                   else f :: filter not_metadata files).
    { simpl. unfold not_metadata at 1. now destruct (String.eqb (suffix f) ".json"). }
    rewrite Hf. destruct (String.eqb (suffix f) ".json") eqn:Ej.
    + rewrite (cook_files_skip _ _ _ _ _ _ _ _ Hrel Ej). apply IH.
    + destruct (cook_asset_spec f (joinpath output_dir rel)
                  (World (fs w) (stdout w ++ [Processing f]) (calls w)))
        as (b & w1 & Hc & Hcalls).
      rewrite (cook_files_step _ _ _ _ _ _ _ _ _ _ Hrel Ej Hc).
      simpl in Hcalls.
      assert (Hcall : call_for input_dir output_dir f
                      = match get_processor f with
                        | Some processor => [(processor, f, joinpath output_dir rel)]
                        | None => []
                        end).
      { unfold call_for. rewrite Hrel. now destruct (get_processor f). }
      destruct b.
      * destruct (IH (S p) q w1) as (p' & q' & w' & H1 & H2 & H3).
        exists p', q', w'. split; [exact H1|]. split; [simpl; lia|].
        simpl. rewrite H3, Hcalls, Hcall. now rewrite <- app_assoc.
      * destruct (IH p (S q) w1) as (p' & q' & w' & H1 & H2 & H3).
        exists p', q', w'. split; [exact H1|]. split; [simpl; lia|].
        simpl. rewrite H3, Hcalls, Hcall. now rewrite <- app_assoc.
Qed.

(** [cook_directory] on a directory: the walk of the files listed. *)
Lemma cook_directory_spec (input_dir output_dir : path) (recursive : bool)
    (w : world) (files : list path) :
  is_dir input_dir (fs w) = true ->
  list_files input_dir recursive (fs w) = inr files ->
  exists processed failed w',
    cook_directory input_dir output_dir recursive w = (inr (processed, failed), w')
    /\ processed + failed = List.length (filter not_metadata files)
    /\ calls w' = calls w
         ++ flat_map (call_for input_dir output_dir) (filter not_metadata files).
Proof.
  intros Hdir Hfiles.
  assert (Hrel : Forall (fun f => exists rel, relative_to f input_dir = inr rel) files).
  { eapply Forall_impl; [|eapply list_files_relative; eauto].
    intros f (rel & -> & _). exists rel. apply relative_to_joinpath. }
  destruct (cook_files_spec input_dir output_dir files Hrel 0 0 w)
    as (p & q & w' & H1 & H2 & H3).
  exists p, q, w'. split; [|split; [exact H2 | exact H3]].
  unfold cook_directory, bind at 1, get_fs.
  assert (He : exists_ input_dir (fs w) = true).
  { unfold exists_, is_dir in *. destruct (lookup input_dir (fs w)); congruence. }
  rewrite He. simpl negb. cbv iota. rewrite Hfiles. exact H1.
Qed.

End WalkFacts.

(** ** The claims about the walk *)

Lemma call_for_inv (input_dir output_dir f : path) (c : AssetProcessor * path * path) :
  In c (call_for input_dir output_dir f) ->
  call_input c = f
  /\ exists rel, relative_to f input_dir = inr rel
                 /\ call_output c = joinpath output_dir rel.
Proof.
  unfold call_for. destruct (get_processor f); [|intros []].
  destruct (relative_to f input_dir) as [e|rel]; [intros []|].
  intros [<-|[]]. split; [reflexivity|]. now exists rel.
Qed.

Lemma not_metadata_suffix (f : path) : not_metadata f = true -> suffix f <> ".json".
Proof.
  unfold not_metadata. intros H E. rewrite E in H. discriminate.
Qed.

(** C1. On an input tree, in both traversal modes, [cook_directory] returns
    counters whose sum is the number of listed regular files whose suffix is
    not [.json]; every call of a processor it makes is for a listed file
    whose suffix is not [.json]. *)
Theorem cook_directory_counts `{R : Runtime} (input_dir output_dir : path)
    (recursive : bool) (w : world) :
  is_dir input_dir (fs w) = true ->
  exists files processed failed w',
    list_files input_dir recursive (fs w) = inr files
    /\ cook_directory input_dir output_dir recursive w = (inr (processed, failed), w')
    /\ processed + failed
       = List.length (filter (fun f => negb (String.eqb (suffix f) ".json")) files)
    /\ exists made,
         calls w' = calls w ++ made
         /\ Forall (fun c => suffix (call_input c) <> ".json"
                             /\ In (call_input c) files) made.
Proof.
  intros Hdir.
  destruct (list_files_directory input_dir recursive (fs w) Hdir) as (files & Hfiles).
  destruct (cook_directory_spec input_dir output_dir recursive w files Hdir Hfiles)
    as (p & q & w' & H1 & H2 & H3).
  exists files, p, q, w'. repeat split; [exact Hfiles | exact H1 | exact H2 |].
  eexists. split; [exact H3|].
  apply Forall_forall. intros c Hc. apply in_flat_map in Hc.
  destruct Hc as (f & Hf & Hc). apply filter_In in Hf. destruct Hf as [Hf Hn].
  apply call_for_inv in Hc. destruct Hc as [-> _].
  split; [now apply not_metadata_suffix | exact Hf].
Qed.

(** C1 on the example tree, walked recursively. *)
Lemma cook_directory_counts_witness :
  exists files processed failed w',
    list_files ["assets"] true (fs Example.start) = inr files
    /\ cook_directory ["assets"] ["cooked"] true Example.start
       = (inr (processed, failed), w')
    /\ processed + failed
       = List.length (filter (fun f => negb (String.eqb (suffix f) ".json")) files)
    /\ exists made,
         calls w' = calls Example.start ++ made
         /\ Forall (fun c => suffix (call_input c) <> ".json"
                             /\ In (call_input c) files) made.
Proof.
  apply (cook_directory_counts ["assets"] ["cooked"] true Example.start).
  reflexivity.
Defined.

(** C7. Without recursion, [cook_directory] lists, counts and cooks the
    regular files that are children of the input directory; every call of a
    processor is for such a child, one component below the input directory. *)
Theorem cook_directory_non_recursive `{R : Runtime} (input_dir output_dir : path)
    (w : world) (es : list (string * node)) :
  lookup input_dir (fs w) = Some (Dir es) ->
  let files := filter (fun f => is_file f (fs w)) (children input_dir es) in
  exists processed failed w',
    cook_directory input_dir output_dir false w = (inr (processed, failed), w')
    /\ processed + failed = List.length (filter not_metadata files)
    /\ exists made,
         calls w' = calls w ++ made
         /\ Forall (fun c => In (call_input c) files
                             /\ (exists child, call_input c = input_dir ++ [child])
                             /\ List.length (call_input c) = S (List.length input_dir))
              made.
Proof.
  intros Hl files.
  assert (Hdir : is_dir input_dir (fs w) = true) by (unfold is_dir; now rewrite Hl).
  assert (Hfiles : list_files input_dir false (fs w) = inr files).
  { unfold list_files, iterdir. now rewrite Hl. }
  destruct (cook_directory_spec input_dir output_dir false w files Hdir Hfiles)
    as (p & q & w' & H1 & H2 & H3).
  exists p, q, w'. repeat split; [exact H1 | exact H2 |].
  eexists. split; [exact H3|].
  apply Forall_forall. intros c Hc. apply in_flat_map in Hc.
  destruct Hc as (f & Hf & Hc). apply filter_In in Hf. destruct Hf as [Hf _].
  apply call_for_inv in Hc. destruct Hc as [-> _].
  split; [exact Hf|].
  apply filter_In in Hf. destruct Hf as [Hf _].
  apply children_under in Hf. destruct Hf as (child & ->).
  split; [now exists child|]. rewrite length_app. simpl. lia.
Qed.

(** C7 on the example tree: the two files of [assets/models] are left out. *)
Lemma cook_directory_non_recursive_witness :
  let files := filter (fun f => is_file f (fs Example.start))
                 (children ["assets"] (match Example.assets with
                                       | Dir es => es
                                       | File _ => []
                                       end)) in
  exists processed failed w',
    cook_directory ["assets"] ["cooked"] false Example.start
    = (inr (processed, failed), w')
    /\ processed + failed = List.length (filter not_metadata files)
    /\ exists made,
         calls w' = calls Example.start ++ made
         /\ Forall (fun c => In (call_input c) files
                             /\ (exists child, call_input c = ["assets"] ++ [child])
                             /\ List.length (call_input c) = S (List.length ["assets"]))
              made.
Proof.
  apply (cook_directory_non_recursive ["assets"] ["cooked"] Example.start).
  reflexivity.
Defined.

(** C8. On an input tree, the calls of processors that [cook_directory]
    makes are those of [call_for] for the listed files that are not metadata
    files; in each, the input path is the input directory joined with a
    relative path and the output path is the output directory joined with
    the same relative path. *)
Theorem cook_directory_output_paths `{R : Runtime} (input_dir output_dir : path)
    (recursive : bool) (w : world) :
  is_dir input_dir (fs w) = true ->
  exists files counts w',
    list_files input_dir recursive (fs w) = inr files
    /\ cook_directory input_dir output_dir recursive w = (inr counts, w')
    /\ calls w' = calls w
         ++ flat_map (call_for input_dir output_dir) (filter not_metadata files)
    /\ forall c, In c (calls w') -> In c (calls w) \/
         exists rel_path,
           relative_to (call_input c) input_dir = inr rel_path
           /\ call_input c = joinpath input_dir rel_path
           /\ call_output c = joinpath output_dir rel_path.
Proof.
  intros Hdir.
  destruct (list_files_directory input_dir recursive (fs w) Hdir) as (files & Hfiles).
  destruct (cook_directory_spec input_dir output_dir recursive w files Hdir Hfiles)
    as (p & q & w' & H1 & H2 & H3).
  exists files, (p, q), w'. repeat split; [exact Hfiles | exact H1 | exact H3 |].
  intros c Hc. rewrite H3 in Hc. apply in_app_iff in Hc.
  destruct Hc as [Hc|Hc]; [now left | right].
  apply in_flat_map in Hc. destruct Hc as (f & _ & Hc).
  apply call_for_inv in Hc. destruct Hc as (-> & rel & Hrel & Hout).
  exists rel. repeat split; [exact Hrel | now apply relative_to_inv | exact Hout].
Qed.

(** C8 on the example tree: [assets/models/m.OBJ] goes to
    [cooked/models/m.OBJ]. *)
Lemma cook_directory_output_paths_witness :
  exists files counts w',
    list_files ["assets"] true (fs Example.start) = inr files
    /\ cook_directory ["assets"] ["cooked"] true Example.start = (inr counts, w')
    /\ calls w' = calls Example.start
         ++ flat_map (call_for ["assets"] ["cooked"]) (filter not_metadata files)
    /\ forall c, In c (calls w') -> In c (calls Example.start) \/
         exists rel_path,
           relative_to (call_input c) ["assets"] = inr rel_path
           /\ call_input c = joinpath ["assets"] rel_path
           /\ call_output c = joinpath ["cooked"] rel_path.
Proof.
  apply (cook_directory_output_paths ["assets"] ["cooked"] true Example.start).
  reflexivity.
Defined.

(** C10. On an input directory that does not exist, [cook_directory]
    returns [(0, 0)] without raising; it prints one line, leaves the file
    tree as it is and calls no processor.  An empty input directory gives
    the same counters.  The exit with status 1 on a missing input path is in
    [main], which reports the path without calling [cook_directory]. *)
Theorem cook_directory_missing_input `{R : Runtime} (input_dir output_dir : path)
    (recursive : bool) (w : world) :
  exists_ input_dir (fs w) = false ->
  cook_directory input_dir output_dir recursive w
  = (inr (0, 0),
     World (fs w) (stdout w ++ [InputDirectoryDoesNotExist input_dir]) (calls w))
  /\ (forall w0, lookup input_dir (fs w0) = Some (Dir []) ->
                 cook_directory input_dir output_dir recursive w0 = (inr (0, 0), w0))
  /\ (forall args, input args = input_dir ->
                   main args w
                   = (inr 1,
                      World (fs w)
                        (stdout w ++ [ErrorInputPathDoesNotExist input_dir])
                        (calls w))).
Proof.
  intros He. split; [|split].
  - unfold cook_directory, bind at 1, get_fs. rewrite He. reflexivity.
  - intros w0 Hl. unfold cook_directory, bind at 1, get_fs.
    unfold exists_. rewrite Hl. simpl negb. cbv iota.
    unfold list_files, iterdir, rglob_star. rewrite Hl.
    destruct w0; destruct recursive; reflexivity.
  - intros args <-. unfold main, bind at 1, get_fs.
    unfold exists_ in He. unfold is_file, is_dir.
    destruct (lookup (input args) (fs w)); [discriminate|]. reflexivity.
Qed.

(** C10 on the example tree, where [missing] does not exist. *)
Lemma cook_directory_missing_input_witness :
  cook_directory ["missing"] ["cooked"] true Example.start
  = (inr (0, 0),
     World (fs Example.start)
       (stdout Example.start ++ [InputDirectoryDoesNotExist ["missing"]])
       (calls Example.start))
  /\ (forall w0, lookup ["missing"] (fs w0) = Some (Dir []) ->
                 cook_directory ["missing"] ["cooked"] true w0 = (inr (0, 0), w0))
  /\ (forall args, input args = ["missing"] ->
                   main args Example.start
                   = (inr 1,
                      World (fs Example.start)
                        (stdout Example.start ++ [ErrorInputPathDoesNotExist ["missing"]])
                        (calls Example.start))).
Proof.
  apply (cook_directory_missing_input ["missing"] ["cooked"] true Example.start).
  reflexivity.
Defined.

(** ** Files that no processor claims *)

Lemma get_processor_none (file_path : path) :
  (forall processor, can_process processor file_path = false) ->
  get_processor file_path = None.
Proof.
  intros H. unfold get_processor, processors. simpl. now rewrite !H.
Qed.

(** C3, as the code has it.  For a file whose extension no registered
    processor claims: [get_processor] returns [None]; [cook_asset] returns
    [False], printing one line and leaving the file tree and the calls as
    they are; and when the file's suffix is not [.json], the walk announces
    it, counts it as failed and goes on with the remaining files. *)
Theorem unclaimed_extension_counts_as_failed `{R : Runtime} (file_path : path) :
  (forall processor, can_process processor file_path = false) ->
  get_processor file_path = None
  /\ (forall output_path w,
        cook_asset file_path output_path w
        = (inr false,
           World (fs w) (stdout w ++ [NoProcessorFound file_path]) (calls w)))
  /\ (suffix file_path <> ".json" ->
      forall input_dir output_dir rel_path files processed_count failed_count w,
        relative_to file_path input_dir = inr rel_path ->
        cook_files input_dir output_dir (file_path :: files)
          processed_count failed_count w
        = cook_files input_dir output_dir files processed_count (S failed_count)
            (World (fs w)
               (stdout w ++ [Processing file_path; NoProcessorFound file_path])
               (calls w))).
Proof.
  intros Hnone. pose proof (get_processor_none _ Hnone) as Hg.
  assert (Hcook : forall output_path w,
             cook_asset file_path output_path w
             = (inr false,
                World (fs w) (stdout w ++ [NoProcessorFound file_path]) (calls w))).
  { intros output_path w. unfold cook_asset. rewrite Hg. reflexivity. }
  split; [exact Hg|]. split; [exact Hcook|].
  intros Hs input_dir output_dir rel files p q w Hrel.
  apply String.eqb_neq in Hs.
  rewrite (cook_files_step _ _ _ _ _ _ _ _ _ _ Hrel Hs (Hcook _ _)).
  simpl. now rewrite <- app_assoc.
Qed.

(** C3 at [assets/c.xyz] of the example tree. *)
Lemma unclaimed_extension_counts_as_failed_witness :
  get_processor ["assets"; "c.xyz"] = None
  /\ (forall output_path w,
        cook_asset ["assets"; "c.xyz"] output_path w
        = (inr false,
           World (fs w) (stdout w ++ [NoProcessorFound ["assets"; "c.xyz"]]) (calls w)))
  /\ (suffix ["assets"; "c.xyz"] <> ".json" ->
      forall input_dir output_dir rel_path files processed_count failed_count w,
        relative_to ["assets"; "c.xyz"] input_dir = inr rel_path ->
        cook_files input_dir output_dir (["assets"; "c.xyz"] :: files)
          processed_count failed_count w
        = cook_files input_dir output_dir files processed_count (S failed_count)
            (World (fs w)
               (stdout w ++ [Processing ["assets"; "c.xyz"];
                             NoProcessorFound ["assets"; "c.xyz"]])
               (calls w))).
Proof.
  apply (unclaimed_extension_counts_as_failed ["assets"; "c.xyz"]).
  intros []; reflexivity.
Defined.

(** C3 as the specification words it fails on a metadata file: no processor
    claims [.json], yet the walk passes over [assets/notes.json] and counts
    nothing. *)
Lemma unclaimed_metadata_file_not_counted :
  (forall processor, can_process processor ["assets"; "notes.json"] = false)
  /\ list_files ["assets"] true (fs Example.notes_only)
     = inr [["assets"; "notes.json"]]
  /\ cook_directory ["assets"] ["cooked"] true Example.notes_only
     = (inr (0, 0), Example.notes_only)
  /\ ~ (exists w',
          cook_files ["assets"] ["cooked"] [["assets"; "notes.json"]] 0 0
            Example.notes_only
          = cook_files ["assets"] ["cooked"] [] 0 1 w').
Proof.
  split; [intros []; reflexivity|].
  split; [reflexivity|]. split; [reflexivity|].
  intros (w' & H). vm_compute in H. discriminate.
Qed.

(** ** The file tree *)

Section FsFacts.

Lemma entry_find_set_same (c : string) (n : node) (es : list (string * node)) :
  entry_find c (entry_set c n es) = Some n.
Proof.
  induction es as [|[c' n'] es IH]; simpl.
  - now rewrite String.eqb_refl.
  - destruct (String.eqb c' c) eqn:E; simpl; rewrite E; [reflexivity | exact IH].
Qed.

Lemma entry_find_set_other (c c' : string) (n : node) (es : list (string * node)) :
  c' <> c -> entry_find c' (entry_set c n es) = entry_find c' es.
Proof.
  intros Hne. induction es as [|[c0 n0] es IH]; simpl.
  - apply String.eqb_neq in Hne. rewrite String.eqb_sym. now rewrite Hne.
  - destruct (String.eqb c0 c) eqn:E; simpl.
    + apply String.eqb_eq in E. subst c0.
      apply String.eqb_neq in Hne. rewrite String.eqb_sym. now rewrite Hne.
    + now rewrite IH.
Qed.

(** Reading below a directory goes through the entry named first. *)
Lemma read_file_cons (c : string) (q : path) (es : list (string * node)) :
  read_file (c :: q) (Dir es) = read_below q (entry_find c es).
Proof.
  unfold read_file, read_below. simpl. now destruct (entry_find c es).
Qed.

Lemma read_below_none (q : path) : read_below q None = inl OSError.
Proof. reflexivity. Qed.

Lemma read_below_some (q : path) (n : node) : read_below q (Some n) = read_file q n.
Proof. reflexivity. Qed.

(** A written file reads back. *)
Lemma write_at_read_same (p : path) (data : bytes) :
  forall o m, write_at p data o = inr m -> read_file p m = inr data.
Proof.
  induction p as [|c p IH]; intros o m; simpl.
  - destruct o as [[|]|]; intros H; inversion H; reflexivity.
  - destruct o as [[|es]|]; try discriminate.
    destruct (write_at p data (entry_find c es)) as [e|m'] eqn:E; [discriminate|].
    intros H. injection H as <-.
    rewrite read_file_cons, entry_find_set_same, read_below_some. eauto.
Qed.

(** Writing a file changes what no other path reads. *)
Lemma write_at_read_other (p : path) (data : bytes) :
  forall o m q, write_at p data o = inr m -> q <> p ->
                read_file q m = read_below q o.
Proof.
  induction p as [|c p IH]; intros o m q; simpl.
  - intros H Hq. destruct q as [|c' q]; [congruence|].
    destruct o as [[|]|]; inversion H; reflexivity.
  - destruct o as [[|es]|]; try discriminate.
    destruct (write_at p data (entry_find c es)) as [e|m'] eqn:E; [discriminate|].
    intros H Hq. injection H as <-.
    destruct q as [|c' q]; [reflexivity|].
    rewrite read_below_some, !read_file_cons.
    destruct (string_dec c' c) as [->|Hc].
    + rewrite entry_find_set_same, read_below_some.
      eapply IH; [exact E | congruence].
    + now rewrite entry_find_set_other.
Qed.

(** Creating directories changes what no path reads. *)
Lemma mkdir_at_read (p : path) :
  forall o m q, mkdir_at p o = inr m -> read_file q m = read_below q o.
Proof.
  induction p as [|c p IH]; intros o m q.
  - destruct o as [[|es]|]; simpl; intros H; inversion H; [reflexivity|].
    destruct q; reflexivity.
  - destruct o as [[|es]|]; simpl; try discriminate.
    + destruct (mkdir_at p (entry_find c es)) as [e|m'] eqn:E; [discriminate|].
      intros H. injection H as <-.
      destruct q as [|c' q]; [reflexivity|].
      rewrite read_below_some, !read_file_cons.
      destruct (string_dec c' c) as [->|Hc].
      * rewrite entry_find_set_same, read_below_some. eauto.
      * now rewrite entry_find_set_other.
    + destruct (mkdir_at p None) as [e|m'] eqn:E; [discriminate|].
      intros H. injection H as <-.
      destruct q as [|c' q]; [reflexivity|].
      rewrite read_file_cons, read_below_none. simpl.
      destruct (String.eqb c c'); [|reflexivity].
      rewrite read_below_some. now rewrite (IH _ _ q E).
Qed.

(** Creating the parents of a path changes nothing at the path itself. *)
Lemma mkdir_at_parent_lookup (p : path) :
  p <> [] ->
  forall o m, mkdir_at (removelast p) o = inr m -> lookup p m = lookup_below p o.
Proof.
  induction p as [|c p IH]; [congruence|]. intros _ o m.
  destruct p as [|c2 p].
  - simpl. destruct o as [[|es]|]; intros H; inversion H; reflexivity.
  - change (removelast (c :: c2 :: p)) with (c :: removelast (c2 :: p)).
    assert (Hne : c2 :: p <> []) by discriminate.
    specialize (IH Hne). remember (c2 :: p) as p2.
    destruct o as [[|es]|]; simpl; try discriminate.
    + destruct (mkdir_at (removelast p2) (entry_find c es)) as [e|m'] eqn:E;
        [discriminate|].
      intros H. injection H as <-. simpl.
      rewrite entry_find_set_same. rewrite (IH _ _ E).
      now destruct (entry_find c es).
    + destruct (mkdir_at (removelast p2) None) as [e|m'] eqn:E; [discriminate|].
      intros H. injection H as <-. simpl. rewrite String.eqb_refl.
      now rewrite (IH _ _ E).
Qed.

Lemma mkdir_parents_is_dir (p : path) (root t : node) :
  mkdir_parents (parent p) root = inr t -> is_dir p t = is_dir p root.
Proof.
  unfold mkdir_parents, parent, is_dir. intros H.
  destruct p as [|c p].
  - simpl in H. destruct root; inversion H. reflexivity.
  - now rewrite (mkdir_at_parent_lookup (c :: p) ltac:(discriminate) _ _ H).
Qed.

End FsFacts.

(** ** Running a computation that succeeded backwards *)

Section IoInversion.

Context {A B : Type}.

Lemma bind_inr (m : io A) (k : A -> io B) (w w' : world) (b : B) :
  bind m k w = (inr b, w') ->
  exists a w1, m w = (inr a, w1) /\ k a w1 = (inr b, w').
Proof.
  unfold bind. destruct (m w) as [[e|a] w1]; [discriminate|]. eauto.
Qed.

Lemma lift_inr (r : exn + A) (w w' : world) (a : A) :
  lift r w = (inr a, w') -> r = inr a /\ w' = w.
Proof.
  destruct r; simpl; unfold raise, ret; intros H; inversion H; auto.
Qed.

Lemma ret_inr (a a' : A) (w w' : world) :
  ret a w = (inr a', w') -> a' = a /\ w' = w.
Proof. unfold ret. intros H; inversion H; auto. Qed.

End IoInversion.

Lemma on_fs_inr (op : node -> exn + node) (w w' : world) (u : unit) :
  on_fs op w = (inr u, w') ->
  exists t, op (fs w) = inr t /\ w' = World t (stdout w) (calls w).
Proof.
  unfold on_fs. destruct (op (fs w)) as [e|t]; intros H; inversion H. eauto.
Qed.

Lemma get_fs_inr (w w' : world) (t : node) :
  get_fs w = (inr t, w') -> t = fs w /\ w' = w.
Proof. unfold get_fs. intros H; inversion H; auto. Qed.

Lemma print_inr (l : line) (w w' : world) (u : unit) :
  print l w = (inr u, w') -> w' = World (fs w) (stdout w ++ [l]) (calls w).
Proof. unfold print. intros H; inversion H; auto. Qed.

(** A [try] whose handler returns [False] returned [True]: the body ran to
    its end. *)
Lemma try_except_true (body : io bool) (l : exn -> line) (w w' : world) :
  try_except body (fun e => print (l e) ;; ret false) w = (inr true, w') ->
  body w = (inr true, w').
Proof.
  unfold try_except. destruct (body w) as [[e|b] w1]; [|auto].
  unfold bind, print, ret. intros H; inversion H.
Qed.

(** ** Model and audio: copy and describe *)

Section PassThrough.

Context `{R : Runtime}.

(** The common shape of [ModelProcessor.process] and
    [AudioProcessor.process], when it returns [True]. *)
Lemma copy_and_describe (kind : string) (metadata : json)
    (input_path output_path : path) (w w' : world) :
  try_except
    (on_fs (mkdir_parents (parent output_path)) ;;
     on_fs (copy2 input_path output_path) ;;
     metadata_path <- lift (with_suffix output_path ".json") ;;
     on_fs (write_file metadata_path (json_dump metadata)) ;;
     print (Processed kind input_path output_path) ;;
     ret true)
    (fun e => print (ErrorProcessing kind input_path e) ;; ret false) w
  = (inr true, w') ->
  let target := copy2_target input_path output_path (fs w) in
  exists data metadata_path t1 t2,
    read_file input_path (fs w) = inr data
    /\ mkdir_parents (parent output_path) (fs w) = inr t1
    /\ copy2 input_path output_path t1 = inr t2
    /\ read_file target t2 = inr data
    /\ with_suffix output_path ".json" = inr metadata_path
    /\ write_file metadata_path (json_dump metadata) t2 = inr (fs w')
    /\ read_file metadata_path (fs w') = inr (json_dump metadata)
    /\ (target <> metadata_path -> read_file target (fs w') = inr data).
Proof.
  intros H target. apply try_except_true in H.
  apply bind_inr in H. destruct H as (u1 & w1 & H1 & H).
  apply on_fs_inr in H1. destruct H1 as (t1 & Hmk & ->).
  apply bind_inr in H. destruct H as (u2 & w2 & H2 & H).
  apply on_fs_inr in H2. destruct H2 as (t2 & Hcp & ->). simpl in Hcp.
  apply bind_inr in H. destruct H as (mp & w3 & H3 & H).
  apply lift_inr in H3. destruct H3 as (Hmp & ->).
  apply bind_inr in H. destruct H as (u4 & w4 & H4 & H).
  apply on_fs_inr in H4. destruct H4 as (t4 & Hwr & ->). simpl in Hwr.
  apply bind_inr in H. destruct H as (u5 & w5 & H5 & H).
  apply print_inr in H5. subst w5.
  apply ret_inr in H. destruct H as (_ & ->). simpl.
  assert (Ht : copy2_target input_path output_path t1 = target).
  { unfold target, copy2_target. now rewrite (mkdir_parents_is_dir _ _ _ Hmk). }
  pose proof Hcp as Hcp'. unfold copy2 in Hcp'. rewrite Ht in Hcp'.
  destruct (list_eq_dec string_dec input_path target); [discriminate|].
  destruct (read_file input_path t1) as [e|data] eqn:Hrd; [discriminate|].
  assert (Hsrc : read_file input_path (fs w) = inr data).
  { rewrite <- Hrd. symmetry. apply (mkdir_at_read _ _ _ input_path Hmk). }
  assert (Hcopy : read_file target t2 = inr data)
    by (eapply write_at_read_same; exact Hcp').
  exists data, mp, t1, t2. repeat split; auto.
  - eapply write_at_read_same; exact Hwr.
  - intros Hne. rewrite <- Hcopy.
    apply (write_at_read_other _ _ _ _ target Hwr Hne).
Qed.

End PassThrough.

Section ProcessorClaims.

Context `{R : Runtime}.

(** Model and audio, in general.  When [ModelProcessor.process] or
    [AudioProcessor.process] returns [True], the bytes of the source file
    were copied unchanged to the target of [shutil.copy2]: the output path,
    unless the output path is an existing directory, in which case the copy
    is the file named after the source inside it.  The metadata file then
    written next to the output path holds empty [animations], [materials]
    and [meshes] for a model, and zero [duration], [channels],
    [sample_rate] and [bit_depth] for audio; the copy is still there at the
    end unless the metadata file is the target itself. *)
Theorem model_and_audio_copy (processor : AssetProcessor)
    (input_path output_path : path) (w w' : world) :
  processor = ModelProcessor \/ processor = AudioProcessor ->
  process processor input_path output_path w = (inr true, w') ->
  let target := copy2_target input_path output_path (fs w) in
  let metadata :=
    match processor with
    | AudioProcessor => audio_metadata input_path
    | _ => model_metadata input_path
    end in
  (exists data metadata_path t1 t2,
     read_file input_path (fs w) = inr data
     /\ mkdir_parents (parent output_path) (fs w) = inr t1
     /\ copy2 input_path output_path t1 = inr t2
     /\ read_file target t2 = inr data
     /\ with_suffix output_path ".json" = inr metadata_path
     /\ write_file metadata_path (json_dump metadata) t2 = inr (fs w')
     /\ read_file metadata_path (fs w') = inr (json_dump metadata)
     /\ (target <> metadata_path -> read_file target (fs w') = inr data))
  /\ (is_dir output_path (fs w) = false -> target = output_path)
  /\ (processor = ModelProcessor ->
      getitem metadata "animations" = Some (JList [])
      /\ getitem metadata "materials" = Some (JList [])
      /\ getitem metadata "meshes" = Some (JList []))
  /\ (processor = AudioProcessor ->
      getitem metadata "duration" = Some (JFloat 0)
      /\ getitem metadata "channels" = Some (JInt 0)
      /\ getitem metadata "sample_rate" = Some (JInt 0)
      /\ getitem metadata "bit_depth" = Some (JInt 0)).
Proof.
  intros Hp H target metadata. split; [|split; [|split]].
  - destruct Hp as [-> | ->]; apply (copy_and_describe _ _ _ _ _ _ H).
  - intros Hd. unfold target, copy2_target. now rewrite Hd.
  - intros ->. repeat split.
  - intros ->. repeat split.
Qed.


End ProcessorClaims.

(** The example tree: [assets/models/m.OBJ] cooked to
    [cooked/models/m.OBJ]. *)
Lemma model_and_audio_copy_example :
  let input_path := ["assets"; "models"; "m.OBJ"] in
  let output_path := ["cooked"; "models"; "m.OBJ"] in
  let w := Example.start in
  let w' := snd (process ModelProcessor input_path output_path w) in
  process ModelProcessor input_path output_path w = (inr true, w')
  /\ exists data metadata_path t1 t2,
       read_file input_path (fs w) = inr data
       /\ mkdir_parents (parent output_path) (fs w) = inr t1
       /\ copy2 input_path output_path t1 = inr t2
       /\ read_file (copy2_target input_path output_path (fs w)) t2 = inr data
       /\ with_suffix output_path ".json" = inr metadata_path
       /\ write_file metadata_path (json_dump (model_metadata input_path)) t2
          = inr (fs w')
       /\ read_file metadata_path (fs w')
          = inr (json_dump (model_metadata input_path))
       /\ (copy2_target input_path output_path (fs w) <> metadata_path ->
           read_file (copy2_target input_path output_path (fs w)) (fs w')
           = inr data).
Proof.
  intros input_path output_path w w'. split; [reflexivity|].
  apply (proj1 (model_and_audio_copy ModelProcessor input_path output_path w w'
                  (or_introl eq_refl) eq_refl)).
Defined.

(** C6.  The claim, a copy of the source file at the output path with its
    metadata next to it, is not what the code does when the output path is
    an existing directory: [ModelProcessor.process] returns [True], the
    output path is still a directory, the copy is the file [m.obj] inside it
    and the metadata is in [cooked.json] beside the directory. *)
Lemma model_copied_into_existing_directory :
  let w' := snd (ModelProcessor_process ["m.obj"] ["cooked"] Example.flat) in
  ModelProcessor_process ["m.obj"] ["cooked"] Example.flat = (inr true, w')
  /\ read_file ["m.obj"] (fs Example.flat) = inr "v 0 0 0"
  /\ read_file ["cooked"] (fs w') = inl OSError
  /\ is_dir ["cooked"] (fs w') = true
  /\ read_file ["cooked"; "m.obj"] (fs w') = inr "v 0 0 0"
  /\ read_file ["cooked.json"] (fs w')
     = inr (json_dump (model_metadata ["m.obj"]))
  /\ exists_ ["cooked"; "m.json"] (fs w') = false.
Proof.
  repeat split.
Qed.


(** ** The manifest *)

Section ManifestFacts.

Context `{R : Runtime}.

(** Reading a metadata file changes nothing. *)
Lemma read_metadata_eq (output_dir metadata_file : path) (w : world) :
  read_metadata output_dir metadata_file w
  = (metadata_record output_dir metadata_file (fs w), w).
Proof.
  unfold read_metadata, metadata_record, bind, get_fs.
  destruct (read_file metadata_file (fs w)) as [e|data]; [reflexivity|]. simpl.
  destruct (json_load data) as [e|metadata]; [reflexivity|]. simpl.
  destruct (with_suffix metadata_file "") as [e|asset_file]; [reflexivity|]. simpl.
  destruct (relative_to asset_file output_dir) as [e|rel]; [reflexivity|]. simpl.
  destruct (setitem metadata "path" (JStr (str rel))); reflexivity.
Qed.

(** The file called [manifest.json] is passed over. *)
Lemma collect_assets_manifest (output_dir f : path) (rest : list path)
    (assets : list json) (w : world) :
  name f = "manifest.json" ->
  collect_assets output_dir (f :: rest) assets w
  = collect_assets output_dir rest assets w.
Proof. intros H. simpl. rewrite H. reflexivity. Qed.

(** A metadata file that is read adds its record. *)
Lemma collect_assets_read (output_dir f : path) (rest : list path)
    (assets : list json) (w : world) (metadata : json) :
  name f <> "manifest.json" ->
  metadata_record output_dir f (fs w) = inr metadata ->
  collect_assets output_dir (f :: rest) assets w
  = collect_assets output_dir rest (assets ++ [metadata]) w.
Proof.
  intros Hn Hm. apply String.eqb_neq in Hn. simpl. rewrite Hn.
  unfold bind at 1, try_except, bind at 1. rewrite read_metadata_eq, Hm.
  reflexivity.
Qed.

(** A metadata file that cannot be read is reported and adds nothing. *)
Lemma collect_assets_error (output_dir f : path) (rest : list path)
    (assets : list json) (w : world) (e : exn) :
  name f <> "manifest.json" ->
  metadata_record output_dir f (fs w) = inl e ->
  collect_assets output_dir (f :: rest) assets w
  = collect_assets output_dir rest assets
      (World (fs w) (stdout w ++ [ErrorReadingMetadata f e]) (calls w)).
Proof.
  intros Hn Hm. apply String.eqb_neq in Hn. simpl. rewrite Hn.
  unfold bind at 1, try_except, bind at 1. rewrite read_metadata_eq, Hm.
  reflexivity.
Qed.

(** The loop of [generate_asset_manifest] ends, leaves the file tree as it
    is and appends the records of [aggregated]. *)
Lemma collect_assets_spec (output_dir : path) (metadata_files : list path) :
  forall assets w,
  exists w',
    collect_assets output_dir metadata_files assets w
    = (inr (assets ++ aggregated output_dir (fs w) metadata_files), w')
    /\ fs w' = fs w /\ calls w' = calls w.
Proof.
  induction metadata_files as [|f rest IH]; intros assets w.
  - exists w. simpl. now rewrite app_nil_r.
  - destruct (String.eqb (name f) "manifest.json") eqn:En.
    + apply String.eqb_eq in En. rewrite (collect_assets_manifest _ _ _ _ _ En).
      simpl. apply String.eqb_eq in En. rewrite En. apply IH.
    + simpl aggregated. rewrite En. apply String.eqb_neq in En.
      destruct (metadata_record output_dir f (fs w)) as [e|metadata] eqn:Em.
      * rewrite (collect_assets_error _ _ _ _ _ _ En Em).
        destruct (IH assets
                    (World (fs w) (stdout w ++ [ErrorReadingMetadata f e]) (calls w)))
          as (w' & H1 & H2 & H3).
        exists w'. simpl in *. auto.
      * rewrite (collect_assets_read _ _ _ _ _ _ En Em).
        destruct (IH (assets ++ [metadata]) w) as (w' & H1 & H2 & H3).
        exists w'. rewrite H1, <- app_assoc. auto.
Qed.

(** [generate_asset_manifest] never raises; it returns [True] exactly when
    the manifest could be written, and the manifest written is that of the
    aggregated records. *)
Lemma generate_asset_manifest_spec (output_dir : path) (w : world) :
  let assets := aggregated output_dir (fs w) (rglob_json output_dir (fs w)) in
  let manifest_path := joinpath output_dir ["manifest.json"] in
  exists b w',
    generate_asset_manifest output_dir w = (inr b, w')
    /\ calls w' = calls w
    /\ match write_file manifest_path (json_dump (make_manifest assets)) (fs w) with
       | inr t => b = true /\ fs w' = t
       | inl _ => b = false /\ fs w' = fs w
       end.
Proof.
  intros assets manifest_path.
  unfold generate_asset_manifest, try_except, bind at 1, get_fs, bind at 1.
  destruct (collect_assets_spec output_dir (rglob_json output_dir (fs w)) [] w)
    as (w1 & H1 & H2 & H3).
  rewrite H1. simpl app. fold assets. unfold bind at 1, on_fs. rewrite H2.
  fold manifest_path.
  destruct (write_file manifest_path (json_dump (make_manifest assets)) (fs w))
    as [e|t].
  - exists false. eexists. split; [reflexivity|]. simpl. auto.
  - exists true. eexists. split; [reflexivity|]. simpl. auto.
Qed.

Lemma aggregated_app (output_dir : path) (root : node) (l1 l2 : list path) :
  aggregated output_dir root (l1 ++ l2)
  = aggregated output_dir root l1 ++ aggregated output_dir root l2.
Proof.
  induction l1 as [|f l1 IH]; simpl; [reflexivity|].
  destruct (String.eqb (name f) "manifest.json"); [exact IH|].
  destruct (metadata_record output_dir f root); [exact IH|].
  simpl. now rewrite IH.
Qed.

(** Where each aggregated record comes from. *)
Lemma aggregated_inv (output_dir : path) (root : node) (metadata_files : list path)
    (entry : json) :
  In entry (aggregated output_dir root metadata_files) ->
  exists metadata_file,
    In metadata_file metadata_files
    /\ name metadata_file <> "manifest.json"
    /\ metadata_record output_dir metadata_file root = inr entry.
Proof.
  induction metadata_files as [|f rest IH]; simpl; [intros []|].
  destruct (String.eqb (name f) "manifest.json") eqn:En.
  - intros H. destruct (IH H) as (g & Hg & Hr). exists g. auto.
  - apply String.eqb_neq in En.
    destruct (metadata_record output_dir f root) as [e|metadata] eqn:Em.
    + intros H. destruct (IH H) as (g & Hg & Hr). exists g. auto.
    + intros [<-|H].
      * exists f. auto.
      * destruct (IH H) as (g & Hg & Hr). exists g. auto.
Qed.

Lemma dict_get_set (k : string) (v : json) (items : list (string * json)) :
  dict_get k (dict_set k v items) = Some v.
Proof.
  induction items as [|[k' v'] items IH]; simpl.
  - now rewrite String.eqb_refl.
  - destruct (String.eqb k' k) eqn:E; simpl; rewrite E; [reflexivity | exact IH].
Qed.

(** The [path] of a record is the path of its metadata file, without the
    suffix and relative to the output directory. *)
Lemma metadata_record_path (output_dir metadata_file : path) (root : node)
    (entry : json) :
  metadata_record output_dir metadata_file root = inr entry ->
  exists asset_file rel,
    with_suffix metadata_file "" = inr asset_file
    /\ relative_to asset_file output_dir = inr rel
    /\ getitem entry "path" = Some (JStr (str rel)).
Proof.
  unfold metadata_record.
  destruct (read_file metadata_file root) as [e|data]; [discriminate|].
  destruct (json_load data) as [e|metadata]; [discriminate|].
  destruct (with_suffix metadata_file "") as [e|asset_file] eqn:Ea; [discriminate|].
  destruct (relative_to asset_file output_dir) as [e|rel] eqn:Er; [discriminate|].
  destruct metadata; try discriminate. simpl. intros H. injection H as <-.
  exists asset_file, rel. split; [reflexivity|]. split; [exact Er|].
  simpl. apply dict_get_set.
Qed.

End ManifestFacts.

(** ** Writing the manifest *)

(** A file can be written in an existing directory unless its name is that
    of a subdirectory. *)
Lemma write_file_in_directory (d : path) (c : string) (data : bytes) :
  forall root,
    is_dir d root = true ->
    is_dir (d ++ [c]) root = false ->
    exists t, write_file (d ++ [c]) data root = inr t.
Proof.
  unfold write_file, is_dir.
  induction d as [|c0 d IH]; intros root Hd Hc.
  - simpl in *. destruct root as [|es]; [discriminate|].
    destruct (entry_find c es) as [[|]|]; try discriminate; eauto.
  - simpl in *. destruct root as [|es]; [discriminate|].
    destruct (entry_find c0 es) as [m|]; [|discriminate].
    destruct (IH m Hd Hc) as (t & Ht). rewrite Ht. eauto.
Qed.

(** A directory in which [rglob] finds something is a directory. *)
Lemma rglob_json_is_dir (d f : path) (root : node) :
  In f (rglob_json d root) -> is_dir d root = true.
Proof.
  unfold rglob_json, rglob_star, is_dir. intros H. apply filter_In in H.
  destruct H as [H _]. destruct (lookup d root) as [[|es]|]; auto; destruct H.
Qed.

Section ManifestClaims.

Context `{R : Runtime}.

(** C2, as the code has it.  When [generate_asset_manifest] returns [True],
    the file [manifest.json] of the output directory holds a manifest whose
    [asset_count] is the length of its [assets]; every entry was read from a
    file found by [rglob('*.json')] whose name is not [manifest.json], so
    none comes from the manifest file, and its [path] is the path of that
    file without its suffix, relative to the output directory. *)
Theorem manifest_count_and_self_exclusion (output_dir : path) (w w' : world) :
  generate_asset_manifest output_dir w = (inr true, w') ->
  let manifest_path := joinpath output_dir ["manifest.json"] in
  exists assets,
    read_file manifest_path (fs w') = inr (json_dump (make_manifest assets))
    /\ getitem (make_manifest assets) "asset_count"
       = Some (JInt (Z.of_nat (List.length assets)))
    /\ getitem (make_manifest assets) "assets" = Some (JList assets)
    /\ Forall
         (fun entry =>
            exists metadata_file asset_file rel,
              In metadata_file (rglob_json output_dir (fs w))
              /\ name metadata_file <> "manifest.json"
              /\ metadata_file <> manifest_path
              /\ metadata_record output_dir metadata_file (fs w) = inr entry
              /\ with_suffix metadata_file "" = inr asset_file
              /\ relative_to asset_file output_dir = inr rel
              /\ getitem entry "path" = Some (JStr (str rel)))
         assets.
Proof.
  intros H manifest_path.
  destruct (generate_asset_manifest_spec output_dir w) as (b & w1 & H1 & _ & H2).
  rewrite H in H1. injection H1 as <- <-. fold manifest_path in H2.
  exists (aggregated output_dir (fs w) (rglob_json output_dir (fs w))).
  destruct (write_file manifest_path _ (fs w)) as [e|t] eqn:Hw;
    [destruct H2; discriminate|].
  destruct H2 as [_ ->].
  split; [eapply write_at_read_same; exact Hw|].
  split; [reflexivity|]. split; [reflexivity|].
  apply Forall_forall. intros entry He. apply aggregated_inv in He.
  destruct He as (f & Hf & Hn & Hr).
  destruct (metadata_record_path _ _ _ _ Hr) as (asset_file & rel & Ha & Hrel & Hp).
  exists f, asset_file, rel. repeat split; auto.
  intros ->. apply Hn. apply name_snoc.
Qed.

(** C9. A metadata file that is read but does not parse is reported on
    standard output and adds no record; the loop goes on with the remaining
    files, and the records aggregated are those of the other files.  The
    build does not fail for it: unless [manifest.json] is a directory,
    [generate_asset_manifest] returns [True] and the manifest of the other
    files' records is written. *)
Theorem unparsable_metadata_is_skipped (output_dir metadata_file : path)
    (data : bytes) (e : exn) (w : world) :
  name metadata_file <> "manifest.json" ->
  read_file metadata_file (fs w) = inr data ->
  json_load data = inl e ->
  let manifest_path := joinpath output_dir ["manifest.json"] in
  (forall rest assets,
     collect_assets output_dir (metadata_file :: rest) assets w
     = collect_assets output_dir rest assets
         (World (fs w)
            (stdout w ++ [ErrorReadingMetadata metadata_file e]) (calls w)))
  /\ (forall before after,
        aggregated output_dir (fs w) (before ++ metadata_file :: after)
        = aggregated output_dir (fs w) (before ++ after))
  /\ (forall before after,
        rglob_json output_dir (fs w) = before ++ metadata_file :: after ->
        is_dir manifest_path (fs w) = false ->
        exists w',
          generate_asset_manifest output_dir w = (inr true, w')
          /\ read_file manifest_path (fs w')
             = inr (json_dump
                      (make_manifest
                         (aggregated output_dir (fs w) (before ++ after))))).
Proof.
  intros Hn Hrd Hld manifest_path.
  assert (Hrec : metadata_record output_dir metadata_file (fs w) = inl e).
  { unfold metadata_record. now rewrite Hrd, Hld. }
  assert (Hagg : forall before after,
             aggregated output_dir (fs w) (before ++ metadata_file :: after)
             = aggregated output_dir (fs w) (before ++ after)).
  { intros before after. rewrite !aggregated_app. f_equal. simpl.
    apply String.eqb_neq in Hn. now rewrite Hn, Hrec. }
  split; [|split; [exact Hagg|]].
  - intros rest assets. now apply collect_assets_error.
  - intros before after Hfound Hnd.
    assert (Hdir : is_dir output_dir (fs w) = true).
    { apply (rglob_json_is_dir _ metadata_file). rewrite Hfound.
      apply in_app_iff. right. now left. }
    destruct (generate_asset_manifest_spec output_dir w) as (b & w' & H1 & _ & H2).
    fold manifest_path in H2. rewrite Hfound, Hagg in H2.
    destruct (write_file_in_directory output_dir "manifest.json"
                (json_dump (make_manifest
                              (aggregated output_dir (fs w) (before ++ after))))
                (fs w) Hdir Hnd) as (t & Ht).
    unfold manifest_path, joinpath in H2. rewrite Ht in H2.
    destruct H2 as [-> Hfs]. exists w'. split; [exact H1|].
    rewrite Hfs. eapply write_at_read_same. exact Ht.
Qed.

End ManifestClaims.

(** C2 on an output directory with three metadata files, two of which
    parse. *)
Lemma manifest_count_and_self_exclusion_witness :
  let w := Example.damaged in
  let w' := snd (generate_asset_manifest ["out"] w) in
  generate_asset_manifest ["out"] w = (inr true, w')
  /\ exists assets,
       read_file ["out"; "manifest.json"] (fs w')
       = inr (json_dump (make_manifest assets))
       /\ getitem (make_manifest assets) "asset_count"
          = Some (JInt (Z.of_nat (List.length assets)))
       /\ getitem (make_manifest assets) "assets" = Some (JList assets)
       /\ Forall
            (fun entry =>
               exists metadata_file asset_file rel,
                 In metadata_file (rglob_json ["out"] (fs w))
                 /\ name metadata_file <> "manifest.json"
                 /\ metadata_file <> ["out"; "manifest.json"]
                 /\ metadata_record ["out"] metadata_file (fs w) = inr entry
                 /\ with_suffix metadata_file "" = inr asset_file
                 /\ relative_to asset_file ["out"] = inr rel
                 /\ getitem entry "path" = Some (JStr (str rel)))
            assets.
Proof.
  intros w w'.
  assert (H : generate_asset_manifest ["out"] w = (inr true, w')) by reflexivity.
  split; [exact H|].
  apply (manifest_count_and_self_exclusion ["out"] w w' H).
Defined.

(** C2 as the specification words it fails on a metadata file called
    [manifest.json.json]: its entry has the path [manifest.json], the name
    of the manifest file. *)
Lemma manifest_entry_with_the_manifest_name :
  let w' := snd (generate_asset_manifest ["out"] Example.odd) in
  let entry := JDict [("path", JStr "manifest.json")] in
  rglob_json ["out"] (fs Example.odd) = [["out"; "manifest.json.json"]]
  /\ generate_asset_manifest ["out"] Example.odd
     = (inr true, w')
  /\ read_file ["out"; "manifest.json"] (fs w')
     = inr (json_dump (make_manifest [entry]))
  /\ getitem (make_manifest [entry]) "assets" = Some (JList [entry])
  /\ getitem entry "path" = Some (JStr (name ["out"; "manifest.json"])).
Proof.
  repeat split.
Qed.

(** C9 on an output directory where [b.json] does not parse. *)
Lemma unparsable_metadata_is_skipped_witness :
  let w := Example.damaged in
  let f := ["out"; "b.json"] in
  (forall rest assets,
     collect_assets ["out"] (f :: rest) assets w
     = collect_assets ["out"] rest assets
         (World (fs w) (stdout w ++ [ErrorReadingMetadata f ValueError]) (calls w)))
  /\ (forall before after,
        aggregated ["out"] (fs w) (before ++ f :: after)
        = aggregated ["out"] (fs w) (before ++ after))
  /\ (forall before after,
        rglob_json ["out"] (fs w) = before ++ f :: after ->
        is_dir ["out"; "manifest.json"] (fs w) = false ->
        exists w',
          generate_asset_manifest ["out"] w = (inr true, w')
          /\ read_file ["out"; "manifest.json"] (fs w')
             = inr (json_dump
                      (make_manifest (aggregated ["out"] (fs w) (before ++ after))))).
Proof.
  intros w f.
  apply (unparsable_metadata_is_skipped ["out"] f "{ not json" ValueError w).
  - discriminate.
  - reflexivity.
  - reflexivity.
Defined.

(** * Further properties of the cooker *)

(** ** The extension tables *)

(** Splits on whether the string [s] is one of the extensions that the goal
    compares it with; in each positive case the goal becomes closed. *)
Ltac by_extension s :=
  repeat match goal with
         | |- context [String.eqb s ?c] =>
             let E := fresh "E" in
             destruct (String.eqb s c) eqn:E;
             [ apply String.eqb_eq in E; subst s;
               solve [ vm_compute; intuition (try discriminate; try congruence) ]
             | ]
         end.

(** X1. No extension is declared by two processors: [get_processor] returns
    a processor exactly when that processor can process the file, so the
    order of the list [processors] decides nothing. *)
Theorem get_processor_unique (file_path : path) (processor : AssetProcessor) :
  get_processor file_path = Some processor
  <-> can_process processor file_path = true.
Proof.
  unfold get_processor, can_process, processors, Str.mem.
  generalize (Str.lower (suffix file_path)). intros s.
  destruct processor; cbn [find supported_extensions existsb];
    by_extension s; cbn; intuition (try discriminate; try congruence).
Qed.

(** X2. The stage table of [_get_shader_type] and the extensions of
    [ShaderProcessor] agree: a file gets a stage other than [unknown]
    exactly when the shader processor can process it, so a shader that the
    cooker dispatches is never recorded as [unknown]. *)
Theorem shader_type_known_iff_processable `{R : Runtime} (file_path : path) :
  _get_shader_type (suffix file_path) <> "unknown"
  <-> can_process ShaderProcessor file_path = true.
Proof.
  unfold _get_shader_type, can_process, type_map, Str.mem.
  generalize (Str.lower (suffix file_path)). intros s.
  cbn [get_default supported_extensions existsb].
  rewrite !(String.eqb_sym _ s).
  by_extension s; cbn; intuition (try discriminate; try congruence).
Qed.

(** X3. The [format] recorded for a model or an audio file is the lower-case
    suffix of the input path without its dot; for a file that the cooker
    dispatches to the model processor it is one of [obj], [gltf], [glb],
    [fbx], and for one dispatched to the audio processor one of [wav],
    [mp3], [ogg], [flac]. *)
Theorem dispatched_format_tags `{R : Runtime} (file_path : path) :
  getitem (model_metadata file_path) "format"
  = Some (JStr (Str.drop 1 (Str.lower (suffix file_path))))
  /\ getitem (audio_metadata file_path) "format"
     = Some (JStr (Str.drop 1 (Str.lower (suffix file_path))))
  /\ (get_processor file_path = Some ModelProcessor ->
      In (Str.drop 1 (Str.lower (suffix file_path))) ["obj"; "gltf"; "glb"; "fbx"])
  /\ (get_processor file_path = Some AudioProcessor ->
      In (Str.drop 1 (Str.lower (suffix file_path))) ["wav"; "mp3"; "ogg"; "flac"]).
Proof.
  split; [reflexivity|]. split; [reflexivity|].
  unfold get_processor, can_process, processors, Str.mem.
  generalize (Str.lower (suffix file_path)). intros s.
  cbn [find supported_extensions existsb].
  split; by_extension s; cbn; discriminate.
Qed.

(** X3 at [assets/models/m.OBJ]. *)
Lemma dispatched_format_tags_witness :
  In (Str.drop 1 (Str.lower (suffix ["assets"; "models"; "m.OBJ"])))
    ["obj"; "gltf"; "glb"; "fbx"].
Proof.
  apply (proj1 (proj2 (proj2 (dispatched_format_tags ["assets"; "models"; "m.OBJ"])))).
  reflexivity.
Defined.

(** ** Naming the metadata file *)

Lemma rfind_app (c : ascii) (s t : string) :
  Str.rfind c (s ++ t)%string
  = match Str.rfind c t with
    | Some i => Some (String.length s + i)
    | None => Str.rfind c s
    end.
Proof.
  induction s as [|a s IH]; simpl.
  - now destruct (Str.rfind c t).
  - rewrite IH. destruct (Str.rfind c t); [reflexivity|].
    now destruct (Str.rfind c s).
Qed.

Lemma length_append (s t : string) :
  String.length (s ++ t)%string = String.length s + String.length t.
Proof. induction s; simpl; congruence. Qed.

Lemma drop_append (s t : string) : Str.drop (String.length s) (s ++ t)%string = t.
Proof. induction s; simpl; auto. Qed.

Lemma take_append (s t : string) : Str.take (String.length s) (s ++ t)%string = s.
Proof. induction s; simpl; congruence. Qed.

Lemma take_length (i : nat) (s : string) :
  i <= String.length s -> String.length (Str.take i s) = i.
Proof.
  revert s; induction i as [|i IH]; intros [|a s]; simpl; intros H;
    try reflexivity; try lia.
  rewrite IH; lia.
Qed.

(** A name that ends with [.json] after a non-empty stem has the suffix
    [.json]. *)
Lemma suffix_of_name_json (stem : string) :
  stem <> "" -> suffix_of_name (stem ++ ".json")%string = ".json".
Proof.
  intros Hne. unfold suffix_of_name. rewrite rfind_app. simpl Str.rfind.
  rewrite length_append. simpl String.length.
  assert (0 < String.length stem) by (destruct stem; [congruence | simpl; lia]).
  replace (String.length stem + 0) with (String.length stem) by lia.
  replace ((0 <? String.length stem)%nat
           && (S (String.length stem) <? String.length stem + 5)%nat)
    with true
    by (symmetry; apply andb_true_intro; split; apply Nat.ltb_lt; lia).
  apply drop_append.
Qed.

(** What [with_suffix] keeps of a name: the name itself when it has no
    suffix, else the name without its suffix.  It is never empty for a
    non-empty name. *)
Lemma kept_name_nonempty (n : string) :
  n <> "" ->
  (if String.eqb (suffix_of_name n) "" then n
   else Str.take (String.length n - String.length (suffix_of_name n)) n) <> "".
Proof.
  intros Hn. destruct (String.eqb (suffix_of_name n) "") eqn:Es; [exact Hn|].
  apply String.eqb_neq in Es. unfold suffix_of_name in *.
  destruct (Str.rfind "." n) as [i|]; [|congruence].
  destruct ((0 <? i)%nat && (S i <? String.length n)%nat) eqn:Ec; [|congruence].
  apply andb_prop in Ec. destruct Ec as [E0 E1].
  apply Nat.ltb_lt in E0. apply Nat.ltb_lt in E1.
  rewrite drop_length.
  replace (String.length n - (String.length n - i)) with i by lia.
  intros H. apply (f_equal String.length) in H.
  rewrite take_length in H by lia. simpl in H. lia.
Qed.

Lemma with_suffix_inv (p q : path) (sfx : string) :
  with_suffix p sfx = inr q ->
  name p <> ""
  /\ q = parent p
         ++ [((if String.eqb (suffix p) "" then name p
               else Str.take (String.length (name p) - String.length (suffix p))
                      (name p)) ++ sfx)%string].
Proof.
  unfold with_suffix.
  destruct (Str.contains "/" sfx); [discriminate|].
  destruct (_ || _); [discriminate|].
  destruct (String.eqb (name p) "") eqn:En; [discriminate|].
  apply String.eqb_neq in En. intros H. injection H as <-.
  split; [exact En|]. now destruct (String.eqb (suffix p) "").
Qed.

Lemma parent_snoc (p : path) (c : string) : parent (p ++ [c]) = p.
Proof. unfold parent. apply removelast_last. Qed.

(** The path that [with_suffix('.json')] returns has the suffix [.json]. *)
Lemma suffix_with_suffix_json (output_path metadata_path : path) :
  with_suffix output_path ".json" = inr metadata_path ->
  suffix metadata_path = ".json".
Proof.
  intros H. apply with_suffix_inv in H. destruct H as (Hn & ->).
  pose proof (kept_name_nonempty (name output_path) Hn) as Hk.
  unfold suffix at 1. rewrite name_snoc. now apply suffix_of_name_json.
Qed.

(** X4. The metadata file of an output path lies in the same directory and
    has the suffix [.json]; without its suffix it is the output path without
    its suffix, which is the path that the manifest records for it; and it
    is another path than the output path unless that has the suffix [.json]
    already. *)
Theorem metadata_path_of_output (output_path metadata_path : path) :
  with_suffix output_path ".json" = inr metadata_path ->
  suffix metadata_path = ".json"
  /\ parent metadata_path = parent output_path
  /\ with_suffix metadata_path "" = with_suffix output_path ""
  /\ (suffix output_path <> ".json" -> metadata_path <> output_path).
Proof.
  intros H. pose proof (suffix_with_suffix_json _ _ H) as Hs.
  apply with_suffix_inv in H. destruct H as (Hn & ->).
  set (kept := if String.eqb (suffix output_path) "" then name output_path
               else Str.take (String.length (name output_path)
                              - String.length (suffix output_path))
                      (name output_path)) in *.
  split; [exact Hs|]. split; [apply parent_snoc|]. split.
  - unfold with_suffix at 1. cbn [Str.contains String.eqb negb andb orb].
    rewrite Hs, name_snoc, parent_snoc.
    assert (Hne : String.eqb (kept ++ ".json") "" = false).
    { apply String.eqb_neq. intros E. apply (f_equal String.length) in E.
      rewrite length_append in E. simpl in E. lia. }
    rewrite Hne. cbn [String.eqb Ascii.eqb Bool.eqb].
    rewrite length_append. cbn [String.length].
    replace (String.length kept + 5 - 5) with (String.length kept) by lia.
    rewrite take_append.
    unfold with_suffix. cbn [Str.contains String.eqb negb andb orb].
    apply String.eqb_neq in Hn. rewrite Hn. unfold kept.
    now destruct (String.eqb (suffix output_path) "").
  - intros Hx E. apply Hx. rewrite <- E at 1. exact Hs.
Qed.

(** X4 at [cooked/models/m.OBJ]. *)
Lemma metadata_path_of_output_witness :
  suffix ["cooked"; "models"; "m.json"] = ".json"
  /\ parent ["cooked"; "models"; "m.json"] = parent ["cooked"; "models"; "m.OBJ"]
  /\ with_suffix ["cooked"; "models"; "m.json"] ""
     = with_suffix ["cooked"; "models"; "m.OBJ"] ""
  /\ (suffix ["cooked"; "models"; "m.OBJ"] <> ".json" ->
      ["cooked"; "models"; "m.json"] <> ["cooked"; "models"; "m.OBJ"]).
Proof.
  apply (metadata_path_of_output ["cooked"; "models"; "m.OBJ"]).
  reflexivity.
Defined.

(** ** When the cooker raises *)



(** ** The command line *)


(** ** Where the cooker writes *)

Section WritesBelow.

Context {A B : Type} (d : path).

Lemma writes_below_ret (a : A) : writes_below d (ret a).
Proof. intros w r w' H. now inversion H. Qed.

Lemma writes_below_raise (e : exn) : writes_below d (@raise A e).
Proof. intros w r w' H. now inversion H. Qed.

Lemma writes_below_lift (r : exn + A) : writes_below d (lift r).
Proof. destruct r; [apply writes_below_raise | apply writes_below_ret]. Qed.

(** The continuation is considered for the values that the first
    computation can return. *)
Lemma writes_below_bind (m : io A) (k : A -> io B) :
  writes_below d m ->
  (forall a, (exists w w1, m w = (inr a, w1)) -> writes_below d (k a)) ->
  writes_below d (bind m k).
Proof.
  intros Hm Hk w r w'. unfold bind.
  destruct (m w) as [[e|a] w1] eqn:E; intros H q Hq.
  - inversion H; subst. eapply Hm; eauto.
  - rewrite (Hk a (ex_intro _ w (ex_intro _ w1 E)) _ _ _ H q Hq).
    eapply Hm; eauto.
Qed.

Lemma writes_below_try_except (body : io A) (handler : exn -> io A) :
  writes_below d body -> (forall e, writes_below d (handler e)) ->
  writes_below d (try_except body handler).
Proof.
  intros Hm Hk w r w'. unfold try_except.
  destruct (body w) as [[e|a] w1] eqn:E; intros H q Hq.
  - rewrite (Hk e _ _ _ H q Hq). eapply Hm; eauto.
  - inversion H; subst. eapply Hm; eauto.
Qed.

End WritesBelow.

Lemma writes_below_get_fs (d : path) : writes_below d get_fs.
Proof. intros w r w' H. now inversion H. Qed.

Lemma writes_below_print (d : path) (l : line) : writes_below d (print l).
Proof. intros w r w' H. now inversion H. Qed.

Lemma writes_below_record_call (d : path) (processor : AssetProcessor)
    (i o : path) : writes_below d (record_call processor i o).
Proof. intros w r w' H. now inversion H. Qed.

Lemma writes_below_print_ret {A} (d : path) (l : line) (a : A) :
  writes_below d (print l ;; ret a).
Proof. intros w r w' H. now inversion H. Qed.

Lemma writes_below_mkdir (d p : path) : writes_below d (on_fs (mkdir_parents p)).
Proof.
  intros w r w'. unfold on_fs.
  destruct (mkdir_parents p (fs w)) as [e|t] eqn:E; intros H q _;
    inversion H; subst; [reflexivity|]. simpl.
  apply (mkdir_at_read _ _ _ q E).
Qed.

Lemma writes_below_write (d rel : path) (data : bytes) :
  writes_below d (on_fs (write_file (d ++ rel) data)).
Proof.
  intros w r w'. unfold on_fs.
  destruct (write_file (d ++ rel) data (fs w)) as [e|t] eqn:E; intros H q Hq;
    inversion H; subst; [reflexivity|]. simpl.
  apply (write_at_read_other _ _ _ _ q E). apply Hq.
Qed.

Lemma writes_below_copy2 (d rel src : path) :
  writes_below d (on_fs (copy2 src (d ++ rel))).
Proof.
  intros w r w'. unfold on_fs.
  destruct (copy2 src (d ++ rel) (fs w)) as [e|t] eqn:E; intros H q Hq;
    inversion H; subst; [reflexivity|]. simpl.
  unfold copy2 in E.
  destruct (list_eq_dec string_dec src _); [discriminate|].
  destruct (read_file src (fs w)); [discriminate|].
  apply (write_at_read_other _ _ _ _ q E).
  unfold copy2_target. destruct (is_dir (d ++ rel) (fs w)).
  - rewrite <- app_assoc. apply Hq.
  - apply Hq.
Qed.

(** The metadata file of an output path below [d] is below [d]. *)
Lemma metadata_path_below (d rel mp : path) :
  rel <> [] -> with_suffix (d ++ rel) ".json" = inr mp ->
  exists rel', mp = d ++ rel'.
Proof.
  intros Hne H. apply with_suffix_inv in H. destruct H as (_ & ->).
  unfold parent.
  assert (Hr : removelast (d ++ rel) = d ++ removelast rel)
    by now apply removelast_app.
  rewrite Hr, <- app_assoc. eauto.
Qed.

Section WritesBelowCooker.

Context `{R : Runtime}.

(** The last two steps of every processor. *)
Lemma writes_below_describe (d rel i : path) (kind : string) (metadata : json) :
  rel <> [] ->
  writes_below d
    (metadata_path <- lift (with_suffix (d ++ rel) ".json") ;;
     on_fs (write_file metadata_path (json_dump metadata)) ;;
     print (Processed kind i (d ++ rel)) ;;
     ret true).
Proof.
  intros Hne. apply writes_below_bind; [apply writes_below_lift|].
  intros mp (w & w1 & Hmp). apply lift_inr in Hmp. destruct Hmp as (Hmp & _).
  destruct (metadata_path_below d rel mp Hne Hmp) as (rel' & ->).
  apply writes_below_bind; [apply writes_below_write|]. intros _ _.
  apply writes_below_print_ret.
Qed.

Lemma process_writes_below (processor : AssetProcessor) (i d rel : path) :
  rel <> [] -> writes_below d (process processor i (d ++ rel)).
Proof.
  intros Hne.
  destruct processor; simpl;
    unfold TextureProcessor_process, ModelProcessor_process,
      AudioProcessor_process, ShaderProcessor_process;
    (apply writes_below_try_except; [|intros e; apply writes_below_print_ret]).
  - apply writes_below_bind; [apply writes_below_get_fs|]. intros root _.
    apply writes_below_bind; [apply writes_below_lift|]. intros data _.
    apply writes_below_bind; [apply writes_below_lift|]. intros image _.
    apply writes_below_bind;
      [destruct (negb _); [apply writes_below_lift | apply writes_below_ret]|].
    intros image' _.
    apply writes_below_bind; [apply writes_below_mkdir|]. intros _ _.
    apply writes_below_bind; [apply writes_below_lift|]. intros png _.
    apply writes_below_bind; [apply writes_below_write|]. intros _ _.
    now apply writes_below_describe.
  - apply writes_below_bind; [apply writes_below_mkdir|]. intros _ _.
    apply writes_below_bind; [apply writes_below_copy2|]. intros _ _.
    now apply (writes_below_describe d rel i "model").
  - apply writes_below_bind; [apply writes_below_mkdir|]. intros _ _.
    apply writes_below_bind; [apply writes_below_copy2|]. intros _ _.
    now apply (writes_below_describe d rel i "audio").
  - apply writes_below_bind; [apply writes_below_get_fs|]. intros root _.
    apply writes_below_bind; [apply writes_below_lift|]. intros data _.
    apply writes_below_bind; [apply writes_below_lift|]. intros source _.
    apply writes_below_bind; [apply writes_below_mkdir|]. intros _ _.
    apply writes_below_bind; [apply writes_below_write|]. intros _ _.
    now apply (writes_below_describe d rel i "shader").
Qed.

Lemma cook_asset_writes_below (i d rel : path) :
  rel <> [] -> writes_below d (cook_asset i (d ++ rel)).
Proof.
  intros Hne. unfold cook_asset. destruct (get_processor i) as [processor|].
  - apply writes_below_bind; [apply writes_below_record_call|]. intros _ _.
    now apply process_writes_below.
  - apply writes_below_print_ret.
Qed.

Lemma cook_files_writes_below (input_dir output_dir : path) (files : list path) :
  Forall (fun f => exists rel, f = input_dir ++ rel /\ rel <> []) files ->
  forall processed_count failed_count,
    writes_below output_dir
      (cook_files input_dir output_dir files processed_count failed_count).
Proof.
  induction 1 as [|f files (rel & -> & Hne) _ IH]; intros p q.
  - apply writes_below_ret.
  - simpl. rewrite relative_to_joinpath. simpl lift.
    apply writes_below_bind; [apply writes_below_ret|]. intros rel' (w & w1 & Hr).
    apply ret_inr in Hr. destruct Hr as (-> & _).
    destruct (String.eqb (suffix (input_dir ++ rel)) ".json"); [apply IH|].
    apply writes_below_bind; [apply writes_below_print|]. intros _ _.
    apply writes_below_bind; [now apply cook_asset_writes_below|].
    intros [|] _; apply IH.
Qed.

(** X7. [cook_directory] creates, changes and removes no regular file
    outside the output directory: whatever it returns, every path that is
    not the output directory or below it reads as before.  In particular
    the input files are left as they are when the input directory is not
    inside the output directory. *)
Theorem cook_directory_writes_below_output (input_dir output_dir : path)
    (recursive : bool) (w w' : world) (r : exn + nat * nat) :
  cook_directory input_dir output_dir recursive w = (r, w') ->
  forall q, (forall rel, q <> output_dir ++ rel) ->
            read_file q (fs w') = read_file q (fs w).
Proof.
  revert w r w'. change (writes_below output_dir
                           (cook_directory input_dir output_dir recursive)).
  unfold cook_directory.
  apply writes_below_bind; [apply writes_below_get_fs|].
  intros root _. destruct (negb (exists_ input_dir root));
    [apply writes_below_print_ret|].
  apply writes_below_bind; [apply writes_below_lift|].
  intros files (w & w1 & Hl). apply lift_inr in Hl. destruct Hl as (Hl & _).
  apply cook_files_writes_below.
  eapply Forall_impl; [|eapply list_files_relative; exact Hl].
  intros f (rel & -> & Hne & _). eauto.
Qed.

End WritesBelowCooker.

(** X7 on the example tree: the shader source is as before the walk. *)
Lemma cook_directory_writes_below_output_witness :
  read_file ["assets"; "b.frag"]
    (fs (snd (cook_directory ["assets"] ["cooked"] true Example.start)))
  = read_file ["assets"; "b.frag"] (fs Example.start).
Proof.
  apply (cook_directory_writes_below_output ["assets"] ["cooked"] true
           Example.start _ _ (surjective_pairing _)).
  intros rel. discriminate.
Defined.

Section ManifestWrites.

Context `{R : Runtime}.

(** X8. [generate_asset_manifest] creates, changes and removes no regular
    file other than [manifest.json] in the output directory, whatever it
    returns; it calls no processor. *)
Theorem generate_asset_manifest_writes_manifest_only (output_dir : path)
    (w w' : world) (r : exn + bool) :
  generate_asset_manifest output_dir w = (r, w') ->
  calls w' = calls w
  /\ forall q, q <> joinpath output_dir ["manifest.json"] ->
               read_file q (fs w') = read_file q (fs w).
Proof.
  intros H.
  destruct (generate_asset_manifest_spec output_dir w) as (b & w1 & H1 & Hc & H2).
  rewrite H in H1. injection H1 as -> ->. split; [exact Hc|].
  intros q Hq.
  destruct (write_file (joinpath output_dir ["manifest.json"]) _ (fs w))
    as [e|t] eqn:Hw; destruct H2 as [_ ->]; [reflexivity|].
  apply (write_at_read_other _ _ _ _ q Hw Hq).
Qed.

End ManifestWrites.

(** X8 on an output directory with three metadata files: [a.json] is as
    before. *)
Lemma generate_asset_manifest_writes_manifest_only_witness :
  calls (snd (generate_asset_manifest ["out"] Example.damaged))
  = calls Example.damaged
  /\ forall q, q <> joinpath ["out"] ["manifest.json"] ->
       read_file q (fs (snd (generate_asset_manifest ["out"] Example.damaged)))
       = read_file q (fs Example.damaged).
Proof.
  apply (generate_asset_manifest_writes_manifest_only ["out"] Example.damaged
           _ _ (surjective_pairing _)).
Defined.

(** ** File names in the walk *)

Lemma name_app (d rel : path) : rel <> [] -> name (d ++ rel) = name rel.
Proof.
  intros Hne. unfold name. induction d as [|c d IH]; [reflexivity|].
  simpl. destruct (d ++ rel) eqn:E; [|exact IH].
  apply app_eq_nil in E. destruct E; congruence.
Qed.

(** X9. In a directory walk every cooked file keeps the name of its input
    file, so its suffix is not [.json] and the metadata file that the
    processor writes next to it is never the cooked file itself. *)
Theorem walk_keeps_names `{R : Runtime} (input_dir output_dir : path)
    (recursive : bool) (w : world) :
  is_dir input_dir (fs w) = true ->
  exists counts w' made,
    cook_directory input_dir output_dir recursive w = (inr counts, w')
    /\ calls w' = calls w ++ made
    /\ Forall (fun c =>
                 name (call_output c) = name (call_input c)
                 /\ suffix (call_output c) <> ".json"
                 /\ forall metadata_path,
                      with_suffix (call_output c) ".json" = inr metadata_path ->
                      metadata_path <> call_output c)
         made.
Proof.
  intros Hdir.
  destruct (list_files_directory input_dir recursive (fs w) Hdir) as (files & Hfiles).
  destruct (cook_directory_spec input_dir output_dir recursive w files Hdir Hfiles)
    as (p & q & w' & H1 & _ & H3).
  exists (p, q), w'. eexists. split; [exact H1|]. split; [exact H3|].
  apply Forall_forall. intros c Hc. apply in_flat_map in Hc.
  destruct Hc as (f & Hf & Hc). apply filter_In in Hf. destruct Hf as [Hf Hn].
  apply call_for_inv in Hc. destruct Hc as (Hin & rel & Hrel & Hout).
  pose proof (list_files_relative _ _ _ _ Hfiles) as Hall.
  rewrite Forall_forall in Hall. destruct (Hall f Hf) as (rel' & Hf' & Hne & _).
  apply relative_to_inv in Hrel.
  assert (rel = rel') by (rewrite Hf' in Hrel; now apply app_inv_head in Hrel).
  subst rel'.
  assert (Hname : name (call_output c) = name (call_input c)).
  { rewrite Hin, Hout, Hf'. unfold joinpath. now rewrite !name_app. }
  assert (Hsfx : suffix (call_output c) <> ".json").
  { unfold suffix. rewrite Hname. rewrite Hin.
    now apply not_metadata_suffix. }
  repeat split; auto.
  intros mp Hmp E. apply Hsfx. rewrite <- E.
  exact (suffix_with_suffix_json _ _ Hmp).
Qed.

(** X9 on the example tree. *)
Lemma walk_keeps_names_witness :
  exists counts w' made,
    cook_directory ["assets"] ["cooked"] true Example.start = (inr counts, w')
    /\ calls w' = calls Example.start ++ made
    /\ Forall (fun c =>
                 name (call_output c) = name (call_input c)
                 /\ suffix (call_output c) <> ".json"
                 /\ forall metadata_path,
                      with_suffix (call_output c) ".json" = inr metadata_path ->
                      metadata_path <> call_output c)
         made.
Proof.
  apply (walk_keeps_names ["assets"] ["cooked"] true Example.start).
  reflexivity.
Defined.

(** ** Processors on a source that cannot be read *)

Lemma read_file_not_file (p : path) (root : node) :
  is_file p root = false -> read_file p root = inl OSError.
Proof.
  unfold is_file, read_file. destruct (lookup p root) as [[|]|]; congruence.
Qed.

Section UnreadableSource.

Context `{R : Runtime}.

(** X10. When the input path is not a regular file, every processor returns
    [False] and reports the error.  The texture and shader processors leave
    the file tree as it is, since they read the source first; the model and
    audio processors have created the parent directories of the output path
    by then, and leave them behind. *)
Theorem process_unreadable_source (input_path output_path : path) (w : world) :
  is_file input_path (fs w) = false ->
  TextureProcessor_process input_path output_path w
  = (inr false,
     World (fs w) (stdout w ++ [ErrorProcessing "texture" input_path OSError])
       (calls w))
  /\ ShaderProcessor_process input_path output_path w
     = (inr false,
        World (fs w) (stdout w ++ [ErrorProcessing "shader" input_path OSError])
          (calls w))
  /\ (forall t,
        mkdir_parents (parent output_path) (fs w) = inr t ->
        ModelProcessor_process input_path output_path w
        = (inr false,
           World t (stdout w ++ [ErrorProcessing "model" input_path OSError])
             (calls w))
        /\ AudioProcessor_process input_path output_path w
           = (inr false,
              World t (stdout w ++ [ErrorProcessing "audio" input_path OSError])
                (calls w))).
Proof.
  intros Hf. pose proof (read_file_not_file _ _ Hf) as Hr.
  split; [|split].
  - unfold TextureProcessor_process, try_except, bind at 1, get_fs, bind at 1.
    rewrite Hr. reflexivity.
  - unfold ShaderProcessor_process, try_except, bind at 1, get_fs, bind at 1.
    rewrite Hr. reflexivity.
  - intros t Hmk.
    assert (Hcp : copy2 input_path output_path t = inl OSError).
    { unfold copy2. destruct (list_eq_dec string_dec _ _); [reflexivity|].
      unfold mkdir_parents in Hmk.
      rewrite (mkdir_at_read _ _ _ input_path Hmk), read_below_some.
      now rewrite Hr. }
    split.
    + unfold ModelProcessor_process, try_except, bind at 1, on_fs at 1.
      rewrite Hmk. unfold bind at 1, on_fs at 1. cbn [fs]. rewrite Hcp.
      reflexivity.
    + unfold AudioProcessor_process, try_except, bind at 1, on_fs at 1.
      rewrite Hmk. unfold bind at 1, on_fs at 1. cbn [fs]. rewrite Hcp.
      reflexivity.
Qed.

End UnreadableSource.

(** X10 on the example tree: cooking the missing model [gone.obj] to
    [cooked/deep/gone.obj] fails and leaves the directory [cooked/deep]. *)
Lemma process_unreadable_source_witness :
  is_dir ["cooked"; "deep"] (fs Example.start) = false
  /\ fst (ModelProcessor_process ["gone.obj"] ["cooked"; "deep"; "gone.obj"]
            Example.start) = inr false
  /\ is_dir ["cooked"; "deep"]
       (fs (snd (ModelProcessor_process ["gone.obj"] ["cooked"; "deep"; "gone.obj"]
                   Example.start))) = true.
Proof.
  destruct (proj2 (proj2 (process_unreadable_source
                            ["gone.obj"] ["cooked"; "deep"; "gone.obj"]
                            Example.start eq_refl)) _ eq_refl) as [H _].
  rewrite H. repeat split.
Defined.

(** ** Textures *)

Section Texture.

Context `{R : Runtime}.

(** X11. When [TextureProcessor.process] returns [True], the source was
    opened as an image and converted to [RGBA] unless that was its mode
    already; the PNG encoding of the resulting image was written to the
    output path, and the metadata file written next records the width and
    height of that image, [rgba8] and four channels whatever the source mode
    was.  The picture is still at the output path at the end unless the
    metadata file is the output path itself. *)
Theorem texture_conversion_and_metadata (input_path output_path : path)
    (w w' : world) :
  TextureProcessor_process input_path output_path w = (inr true, w') ->
  exists data opened image png metadata_path t1 t2,
    read_file input_path (fs w) = inr data
    /\ Image_open data = inr opened
    /\ (if String.eqb (Image_mode opened) "RGBA"
        then inr opened else Image_convert opened "RGBA") = inr image
    /\ mkdir_parents (parent output_path) (fs w) = inr t1
    /\ Image_save_png image = inr png
    /\ write_file output_path png t1 = inr t2
    /\ with_suffix output_path ".json" = inr metadata_path
    /\ let metadata :=
         JDict [("type", JStr "texture");
                ("format", JStr "rgba8");
                ("width", JInt (Image_width image));
                ("height", JInt (Image_height image));
                ("channels", JInt 4);
                ("mipmaps", JBool true);
                ("source", JStr (str input_path))] in
       write_file metadata_path (json_dump metadata) t2 = inr (fs w')
       /\ read_file metadata_path (fs w') = inr (json_dump metadata)
       /\ (output_path <> metadata_path -> read_file output_path (fs w') = inr png).
Proof.
  intros H. apply try_except_true in H.
  apply bind_inr in H. destruct H as (root & w1 & H1 & H).
  apply get_fs_inr in H1. destruct H1 as (-> & ->).
  apply bind_inr in H. destruct H as (data & w2 & H2 & H).
  apply lift_inr in H2. destruct H2 as (Hrd & ->).
  apply bind_inr in H. destruct H as (opened & w3 & H3 & H).
  apply lift_inr in H3. destruct H3 as (Hop & ->).
  apply bind_inr in H. destruct H as (image & w4 & H4 & H).
  assert (Hconv : (if String.eqb (Image_mode opened) "RGBA"
                   then inr opened else Image_convert opened "RGBA") = inr image
                  /\ w4 = w).
  { destruct (String.eqb (Image_mode opened) "RGBA"); simpl in H4.
    - apply ret_inr in H4. destruct H4 as (-> & ->). auto.
    - apply lift_inr in H4. exact H4. }
  destruct Hconv as (Hconv & ->).
  apply bind_inr in H. destruct H as (u1 & w5 & H5 & H).
  apply on_fs_inr in H5. destruct H5 as (t1 & Hmk & ->).
  apply bind_inr in H. destruct H as (png & w6 & H6 & H).
  apply lift_inr in H6. destruct H6 as (Hpng & ->).
  apply bind_inr in H. destruct H as (u2 & w7 & H7 & H).
  apply on_fs_inr in H7. destruct H7 as (t2 & Hout & ->). simpl in Hout.
  apply bind_inr in H. destruct H as (mp & w8 & H8 & H).
  apply lift_inr in H8. destruct H8 as (Hmp & ->).
  apply bind_inr in H. destruct H as (u3 & w9 & H9 & H).
  apply on_fs_inr in H9. destruct H9 as (t3 & Hwr & ->). simpl in Hwr.
  apply bind_inr in H. destruct H as (u4 & w10 & H10 & H).
  apply print_inr in H10. subst w10.
  apply ret_inr in H. destruct H as (_ & ->). simpl.
  exists data, opened, image, png, mp, t1, t2. repeat split; auto.
  - eapply write_at_read_same; exact Hwr.
  - intros Hne.
    rewrite (write_at_read_other _ _ _ _ output_path Hwr Hne), read_below_some.
    eapply write_at_read_same; exact Hout.
Qed.

End Texture.

(** X11 on the example tree: [assets/a.png] cooked to [cooked/a.png]. *)
Lemma texture_conversion_and_metadata_witness :
  let w := Example.start in
  let w' := snd (TextureProcessor_process ["assets"; "a.png"] ["cooked"; "a.png"] w) in
  exists data opened image png metadata_path t1 t2,
    read_file ["assets"; "a.png"] (fs w) = inr data
    /\ Image_open data = inr opened
    /\ (if String.eqb (Image_mode opened) "RGBA"
        then inr opened else Image_convert opened "RGBA") = inr image
    /\ mkdir_parents (parent ["cooked"; "a.png"]) (fs w) = inr t1
    /\ Image_save_png image = inr png
    /\ write_file ["cooked"; "a.png"] png t1 = inr t2
    /\ with_suffix ["cooked"; "a.png"] ".json" = inr metadata_path
    /\ let metadata :=
         JDict [("type", JStr "texture");
                ("format", JStr "rgba8");
                ("width", JInt (Image_width image));
                ("height", JInt (Image_height image));
                ("channels", JInt 4);
                ("mipmaps", JBool true);
                ("source", JStr (str ["assets"; "a.png"]))] in
       write_file metadata_path (json_dump metadata) t2 = inr (fs w')
       /\ read_file metadata_path (fs w') = inr (json_dump metadata)
       /\ (["cooked"; "a.png"] <> metadata_path ->
           read_file ["cooked"; "a.png"] (fs w') = inr png).
Proof.
  intros w w'.
  assert (H : TextureProcessor_process ["assets"; "a.png"] ["cooked"; "a.png"] w
              = (inr true, w')) by reflexivity.
  apply (texture_conversion_and_metadata _ _ w w' H).
Defined.

(** ** The manifest: edge cases and fields *)

(** Nothing can be written in a directory that is not there. *)
Lemma write_file_no_directory (d : path) (c : string) (data : bytes) :
  forall root, is_dir d root = false ->
               write_file (d ++ [c]) data root = inl OSError.
Proof.
  unfold write_file, is_dir.
  induction d as [|c0 d IH]; intros root Hd; simpl in *.
  - destruct root; [reflexivity | discriminate].
  - destruct root as [|es]; [reflexivity|].
    destruct (entry_find c0 es) as [m|] eqn:E.
    + now rewrite (IH m Hd).
    + destruct (d ++ [c]) eqn:Ed; [|reflexivity].
      apply app_eq_nil in Ed. destruct Ed; discriminate.
Qed.


Section ManifestEdges.

Context `{R : Runtime}.

(** X12. On an output directory that does not exist, or that is a regular
    file, [generate_asset_manifest] returns [False], reports the error and
    creates nothing.  On an empty output directory it returns [True] and
    writes a manifest with no assets and [asset_count] zero. *)
Theorem manifest_of_missing_or_empty_directory (output_dir : path) (w : world) :
  (is_dir output_dir (fs w) = false ->
   generate_asset_manifest output_dir w
   = (inr false,
      World (fs w) (stdout w ++ [ErrorGeneratingAssetManifest OSError]) (calls w)))
  /\ (lookup output_dir (fs w) = Some (Dir []) ->
      exists w',
        generate_asset_manifest output_dir w = (inr true, w')
        /\ read_file (joinpath output_dir ["manifest.json"]) (fs w')
           = inr (json_dump (make_manifest []))
        /\ getitem (make_manifest []) "asset_count" = Some (JInt 0)
        /\ getitem (make_manifest []) "assets" = Some (JList [])).
Proof.
  split.
  - intros Hd.
    assert (Hg : rglob_json output_dir (fs w) = []).
    { unfold rglob_json, rglob_star. unfold is_dir in Hd.
      destruct (lookup output_dir (fs w)) as [[|]|]; try discriminate; reflexivity. }
    unfold generate_asset_manifest, try_except, bind at 1, get_fs, bind at 1.
    rewrite Hg. cbn [collect_assets ret]. unfold bind at 1, on_fs.
    unfold joinpath. rewrite (write_file_no_directory _ _ _ _ Hd). reflexivity.
  - intros Hl.
    assert (Hg : rglob_json output_dir (fs w) = []).
    { unfold rglob_json, rglob_star. now rewrite Hl. }
    assert (Hd : is_dir output_dir (fs w) = true) by (unfold is_dir; now rewrite Hl).
    assert (Hm : is_dir (output_dir ++ ["manifest.json"]) (fs w) = false).
    { unfold is_dir. clear Hg Hd. revert Hl. generalize (fs w).
      induction output_dir as [|c d IH]; intros n Hl; simpl in *.
      - now injection Hl as ->.
      - destruct n as [|es]; [discriminate|].
        destruct (entry_find c es); [now apply IH | discriminate]. }
    destruct (write_file_in_directory output_dir "manifest.json"
                (json_dump (make_manifest [])) (fs w) Hd Hm) as (t & Ht).
    destruct (generate_asset_manifest_spec output_dir w) as (b & w' & H1 & _ & H2).
    rewrite Hg in H2. cbn [aggregated] in H2. unfold joinpath in H2.
    rewrite Ht in H2. destruct H2 as [-> Hfs]. exists w'.
    split; [exact H1|]. split; [|split; reflexivity].
    rewrite Hfs. eapply write_at_read_same. exact Ht.
Qed.

(** X13. A metadata file that holds valid JSON which is not an object (a
    list, a string, a number) adds no record either: the assignment of
    [path] raises, the file is reported and the loop goes on with the
    remaining files. *)
Theorem non_object_metadata_is_skipped (output_dir metadata_file : path)
    (data : bytes) (value : json) (w : world) :
  name metadata_file <> "manifest.json" ->
  read_file metadata_file (fs w) = inr data ->
  json_load data = inr value ->
  (forall items, value <> JDict items) ->
  exists e,
    metadata_record output_dir metadata_file (fs w) = inl e
    /\ forall rest assets,
         collect_assets output_dir (metadata_file :: rest) assets w
         = collect_assets output_dir rest assets
             (World (fs w)
                (stdout w ++ [ErrorReadingMetadata metadata_file e]) (calls w)).
Proof.
  intros Hn Hrd Hld Hv.
  assert (He : exists e, metadata_record output_dir metadata_file (fs w) = inl e).
  { unfold metadata_record. rewrite Hrd, Hld.
    destruct (with_suffix metadata_file "") as [e|asset_file]; [eauto|].
    destruct (relative_to asset_file output_dir) as [e|rel]; [eauto|].
    destruct value; simpl; eauto. exfalso. eapply Hv. reflexivity. }
  destruct He as (e & He). exists e. split; [exact He|].
  intros rest assets. now apply collect_assets_error.
Qed.


End ManifestEdges.

(** X12 on the empty directory [cooked] of the example tree. *)
Lemma manifest_of_missing_or_empty_directory_witness :
  exists w',
    generate_asset_manifest ["cooked"] Example.start = (inr true, w')
    /\ read_file (joinpath ["cooked"] ["manifest.json"]) (fs w')
       = inr (json_dump (make_manifest []))
    /\ getitem (make_manifest []) "asset_count" = Some (JInt 0)
    /\ getitem (make_manifest []) "assets" = Some (JList []).
Proof.
  apply (proj2 (manifest_of_missing_or_empty_directory ["cooked"] Example.start)).
  reflexivity.
Defined.

(** X13 on a metadata file that holds [[]]. *)
Lemma non_object_metadata_is_skipped_witness :
  exists e,
    metadata_record ["out"] ["out"; "l.json"] (fs Example.listed) = inl e
    /\ forall rest assets,
         collect_assets ["out"] (["out"; "l.json"] :: rest) assets Example.listed
         = collect_assets ["out"] rest assets
             (World (fs Example.listed)
                (stdout Example.listed
                 ++ [ErrorReadingMetadata ["out"; "l.json"] e])
                (calls Example.listed)).
Proof.
  apply (non_object_metadata_is_skipped ["out"] ["out"; "l.json"] "[]" (JList [])
           Example.listed).
  - discriminate.
  - reflexivity.
  - reflexivity.
  - discriminate.
Defined.


(** ** Recursive and flat walks *)

Lemma descendants_dir (here : path) (es : list (string * node)) :
  descendants here (Dir es)
  = children here es
    ++ flat_map (fun e => descendants (here ++ [fst e]) (snd e)) es.
Proof.
  simpl. f_equal. induction es as [|[c m] es IH]; simpl; [reflexivity|].
  now rewrite IH.
Qed.

Section RecursiveAndFlat.

Context `{R : Runtime}.

(** X15. The recursive listing of a directory starts with its flat listing,
    so a recursive walk counts at least the files that a flat walk of the
    same tree counts; in a directory without subdirectories the two walks
    are the same computation. *)
Theorem recursive_walk_extends_flat_walk (input_dir output_dir : path)
    (w : world) (es : list (string * node)) :
  lookup input_dir (fs w) = Some (Dir es) ->
  exists flat deeper p f w1 p' f' w2,
    list_files input_dir false (fs w) = inr flat
    /\ list_files input_dir true (fs w) = inr (flat ++ deeper)
    /\ cook_directory input_dir output_dir false w = (inr (p, f), w1)
    /\ cook_directory input_dir output_dir true w = (inr (p', f'), w2)
    /\ p + f <= p' + f'
    /\ ((forall e, In e es -> exists data, snd e = File data) ->
        deeper = []
        /\ cook_directory input_dir output_dir true w
           = cook_directory input_dir output_dir false w).
Proof.
  intros Hl.
  assert (Hdir : is_dir input_dir (fs w) = true) by (unfold is_dir; now rewrite Hl).
  set (is_f := fun f => is_file f (fs w)).
  set (sub := flat_map (fun e => descendants (input_dir ++ [fst e]) (snd e)) es).
  assert (Hflat : list_files input_dir false (fs w)
                  = inr (filter is_f (children input_dir es))).
  { unfold list_files, iterdir. now rewrite Hl. }
  assert (Hrec : list_files input_dir true (fs w)
                 = inr (filter is_f (children input_dir es) ++ filter is_f sub)).
  { unfold list_files, rglob_star. rewrite Hl, descendants_dir.
    now rewrite filter_app. }
  destruct (cook_directory_spec input_dir output_dir false w _ Hdir Hflat)
    as (p & f & w1 & H1 & H2 & _).
  destruct (cook_directory_spec input_dir output_dir true w _ Hdir Hrec)
    as (p' & f' & w2 & H1' & H2' & _).
  exists (filter is_f (children input_dir es)), (filter is_f sub),
    p, f, w1, p', f', w2.
  repeat split; auto.
  - rewrite H2, H2', filter_app, length_app. lia.
  - unfold sub. clear - H. induction es as [|e es IH]; [reflexivity|].
    simpl. destruct (H e (or_introl eq_refl)) as (data & ->). simpl.
    apply IH. intros e' He'. apply H. now right.
  - assert (Hsub : sub = []).
    { unfold sub. clear - H. induction es as [|e es IH]; [reflexivity|].
      simpl. destruct (H e (or_introl eq_refl)) as (data & ->). simpl.
      apply IH. intros e' He'. apply H. now right. }
    assert (Hun : forall recursive,
               cook_directory input_dir output_dir recursive w
               = if negb (exists_ input_dir (fs w))
                 then (print (InputDirectoryDoesNotExist input_dir) ;; ret (0, 0)) w
                 else (files <- lift (list_files input_dir recursive (fs w)) ;;
                       cook_files input_dir output_dir files 0 0) w)
      by (intros recursive; unfold cook_directory, bind at 1, get_fs;
          now destruct (negb (exists_ input_dir (fs w)))).
    rewrite !Hun, Hflat, Hrec, Hsub. simpl filter. now rewrite app_nil_r.
Qed.

End RecursiveAndFlat.

(** X15 on the example tree. *)
Lemma recursive_walk_extends_flat_walk_witness :
  exists flat deeper p f w1 p' f' w2,
    list_files ["assets"] false (fs Example.start) = inr flat
    /\ list_files ["assets"] true (fs Example.start) = inr (flat ++ deeper)
    /\ cook_directory ["assets"] ["cooked"] false Example.start = (inr (p, f), w1)
    /\ cook_directory ["assets"] ["cooked"] true Example.start = (inr (p', f'), w2)
    /\ p + f <= p' + f'
    /\ ((forall e, In e (match Example.assets with Dir es => es | _ => [] end) ->
                   exists data, snd e = File data) ->
        deeper = []
        /\ cook_directory ["assets"] ["cooked"] true Example.start
           = cook_directory ["assets"] ["cooked"] false Example.start).
Proof.
  apply (recursive_walk_extends_flat_walk ["assets"] ["cooked"] Example.start).
  reflexivity.
Defined.

(** ** Doing again what was done *)

Lemma entry_set_same (c : string) (n : node) (es : list (string * node)) :
  entry_find c es = Some n -> entry_set c n es = es.
Proof.
  induction es as [|[c' n'] es IH]; simpl; [discriminate|].
  destruct (String.eqb c' c); intros H.
  - now injection H as ->.
  - now rewrite IH.
Qed.

(** Writing to a file what it holds changes nothing. *)
Lemma write_file_same (p : path) (data : bytes) :
  forall t, read_file p t = inr data -> write_file p data t = inr t.
Proof.
  unfold write_file, read_file.
  induction p as [|c p IH]; intros t; simpl.
  - destruct t; [|discriminate]. intros H. now injection H as ->.
  - destruct t as [|es]; [discriminate|].
    destruct (entry_find c es) as [m|] eqn:E; [|discriminate].
    intros H. rewrite (IH m H). now rewrite entry_set_same.
Qed.

(** Creating a directory that exists changes nothing. *)
Lemma mkdir_parents_existing (p : path) :
  forall t, is_dir p t = true -> mkdir_parents p t = inr t.
Proof.
  unfold mkdir_parents, is_dir.
  induction p as [|c p IH]; intros t; simpl.
  - destruct t; [discriminate | reflexivity].
  - destruct t as [|es]; [discriminate|].
    destruct (entry_find c es) as [m|] eqn:E; [|discriminate].
    intros H. rewrite (IH m H). now rewrite entry_set_same.
Qed.

(** What exists lies in a directory. *)
Lemma parent_is_dir (p : path) :
  p <> [] -> forall t n, lookup p t = Some n -> is_dir (parent p) t = true.
Proof.
  unfold is_dir, parent.
  induction p as [|c p IH]; [congruence|]. intros _ t n.
  destruct p as [|c2 p].
  - simpl. destruct t as [|es]; [discriminate | reflexivity].
  - change (removelast (c :: c2 :: p)) with (c :: removelast (c2 :: p)).
    remember (c2 :: p) as p2. simpl.
    destruct t as [|es]; [discriminate|].
    destruct (entry_find c es) as [m|]; [|discriminate].
    apply IH. subst p2. discriminate.
Qed.

Lemma read_file_parent_is_dir (p : path) (t : node) (data : bytes) :
  p <> [] -> read_file p t = inr data -> is_dir (parent p) t = true.
Proof.
  unfold read_file. intros Hne H.
  destruct (lookup p t) as [n|] eqn:E; [|discriminate].
  now apply (parent_is_dir p Hne t n).
Qed.

Lemma read_file_not_dir (p : path) (t : node) (data : bytes) :
  read_file p t = inr data -> is_dir p t = false.
Proof.
  unfold read_file, is_dir. destruct (lookup p t) as [[|]|]; congruence.
Qed.

(** ** Running a computation forwards *)

Section IoRun.

Context {A B : Type}.

Lemma bind_run (m : io A) (k : A -> io B) (w w1 : world) (a : A) :
  m w = (inr a, w1) -> bind m k w = k a w1.
Proof. intros H. unfold bind. now rewrite H. Qed.

Lemma lift_run (r : exn + A) (a : A) (w : world) :
  r = inr a -> lift r w = (inr a, w).
Proof. intros ->. reflexivity. Qed.

Lemma try_except_run (body : io A) (handler : exn -> io A) (w w1 : world) (a : A) :
  body w = (inr a, w1) -> try_except body handler w = (inr a, w1).
Proof. intros H. unfold try_except. now rewrite H. Qed.

End IoRun.

Lemma on_fs_run (op : node -> exn + node) (w : world) (t : node) :
  op (fs w) = inr t -> on_fs op w = (inr tt, World t (stdout w) (calls w)).
Proof. intros H. unfold on_fs. now rewrite H. Qed.

Section Recook.

Context `{R : Runtime}.

(** The last steps of every processor, run on a tree where they can be
    done. *)
Lemma describe_run (kind : string) (metadata : json) (i o mp : path)
    (w : world) (t : node) :
  with_suffix o ".json" = inr mp ->
  write_file mp (json_dump metadata) (fs w) = inr t ->
  (metadata_path <- lift (with_suffix o ".json") ;;
   on_fs (write_file metadata_path (json_dump metadata)) ;;
   print (Processed kind i o) ;;
   ret true) w
  = (inr true, World t (stdout w ++ [Processed kind i o]) (calls w)).
Proof.
  intros Hmp Hwr.
  rewrite (bind_run _ _ _ _ _ (lift_run _ _ w Hmp)). cbv beta.
  rewrite (bind_run _ _ _ _ _ (on_fs_run _ _ _ Hwr)). reflexivity.
Qed.

(** Model and audio: cooking again what was cooked changes nothing. *)
Lemma copy_and_describe_again (kind : string) (metadata : json)
    (i o mp : path) (w w1 : world) :
  let run :=
    try_except
      (on_fs (mkdir_parents (parent o)) ;;
       on_fs (copy2 i o) ;;
       metadata_path <- lift (with_suffix o ".json") ;;
       on_fs (write_file metadata_path (json_dump metadata)) ;;
       print (Processed kind i o) ;;
       ret true)
      (fun e => print (ErrorProcessing kind i e) ;; ret false) in
  run w = (inr true, w1) ->
  with_suffix o ".json" = inr mp ->
  i <> mp -> o <> mp -> is_dir o (fs w) = false ->
  exists w2, run w1 = (inr true, w2) /\ fs w2 = fs w1.
Proof.
  intros run H Hmp Himp Homp Hod.
  destruct (copy_and_describe kind metadata i o w w1 H)
    as (data & mp' & t1 & t2 & Hsrc & Hmk & Hcp & _ & Hmp' & Hwr & Rmp & Rtgt).
  rewrite Hmp in Hmp'. injection Hmp' as <-.
  assert (Ht : copy2_target i o (fs w) = o) by (unfold copy2_target; now rewrite Hod).
  rewrite Ht in Rtgt. specialize (Rtgt Homp).
  assert (Ht1 : copy2_target i o t1 = o).
  { unfold copy2_target. now rewrite (mkdir_parents_is_dir _ _ _ Hmk), Hod. }
  unfold copy2 in Hcp. rewrite Ht1 in Hcp.
  destruct (list_eq_dec string_dec i o) as [|Hio]; [discriminate|].
  destruct (read_file i t1) as [e|data'] eqn:Hrd1; [discriminate|].
  assert (Hdd : data' = data).
  { unfold mkdir_parents in Hmk.
    rewrite (mkdir_at_read _ _ _ i Hmk), read_below_some, Hsrc in Hrd1.
    congruence. }
  subst data'.
  assert (Ri : read_file i (fs w1) = inr data).
  { rewrite (write_at_read_other _ _ _ _ i Hwr Himp), read_below_some.
    rewrite (write_at_read_other _ _ _ _ i Hcp Hio), read_below_some.
    exact Hrd1. }
  assert (Hone : o <> []).
  { intros ->. apply with_suffix_inv in Hmp. now destruct Hmp. }
  pose proof (mkdir_parents_existing _ _
                (read_file_parent_is_dir _ _ _ Hone Rtgt)) as Hmk2.
  assert (Hcp2 : copy2 i o (fs w1) = inr (fs w1)).
  { unfold copy2, copy2_target. rewrite (read_file_not_dir _ _ _ Rtgt).
    destruct (list_eq_dec string_dec i o); [contradiction|].
    rewrite Ri. now apply write_file_same. }
  pose proof (write_file_same _ _ _ Rmp) as Hwr2.
  destruct w1 as [t3 out3 calls3]. cbn [fs] in *.
  eexists. split.
  - unfold run. apply try_except_run.
    rewrite (bind_run _ _ _ _ _ (on_fs_run _ (World t3 out3 calls3) _ Hmk2)).
    cbv beta. cbn [fs stdout calls].
    rewrite (bind_run _ _ _ _ _ (on_fs_run _ (World t3 out3 calls3) _ Hcp2)).
    cbv beta. cbn [fs stdout calls].
    eapply describe_run; [exact Hmp | exact Hwr2].
  - reflexivity.
Qed.

(** The steps of a shader that was cooked. *)
Lemma shader_steps (i o : path) (w w' : world) :
  ShaderProcessor_process i o w = (inr true, w') ->
  exists data source mp t1 t2,
    read_file i (fs w) = inr data
    /\ text_decode data = inr source
    /\ mkdir_parents (parent o) (fs w) = inr t1
    /\ write_file o (text_encode source) t1 = inr t2
    /\ with_suffix o ".json" = inr mp
    /\ write_file mp (json_dump (shader_metadata i)) t2 = inr (fs w').
Proof.
  intros H. apply try_except_true in H.
  apply bind_inr in H. destruct H as (root & w1 & H1 & H).
  apply get_fs_inr in H1. destruct H1 as (-> & ->).
  apply bind_inr in H. destruct H as (data & w2 & H2 & H).
  apply lift_inr in H2. destruct H2 as (Hrd & ->).
  apply bind_inr in H. destruct H as (source & w3 & H3 & H).
  apply lift_inr in H3. destruct H3 as (Hdec & ->).
  apply bind_inr in H. destruct H as (u1 & w4 & H4 & H).
  apply on_fs_inr in H4. destruct H4 as (t1 & Hmk & ->).
  apply bind_inr in H. destruct H as (u2 & w5 & H5 & H).
  apply on_fs_inr in H5. destruct H5 as (t2 & Hout & ->). simpl in Hout.
  apply bind_inr in H. destruct H as (mp & w6 & H6 & H).
  apply lift_inr in H6. destruct H6 as (Hmp & ->).
  apply bind_inr in H. destruct H as (u3 & w7 & H7 & H).
  apply on_fs_inr in H7. destruct H7 as (t3 & Hwr & ->). simpl in Hwr.
  apply bind_inr in H. destruct H as (u4 & w8 & H8 & H).
  apply print_inr in H8. subst w8.
  apply ret_inr in H. destruct H as (_ & ->). simpl.
  exists data, source, mp, t1, t2. auto 10.
Qed.

(** The steps of a texture that was cooked. *)
Lemma texture_steps (i o : path) (w w' : world) :
  TextureProcessor_process i o w = (inr true, w') ->
  exists data opened image png mp t1 t2,
    read_file i (fs w) = inr data
    /\ Image_open data = inr opened
    /\ (if negb (String.eqb (Image_mode opened) "RGBA")
        then Image_convert opened "RGBA" else inr opened) = inr image
    /\ mkdir_parents (parent o) (fs w) = inr t1
    /\ Image_save_png image = inr png
    /\ write_file o png t1 = inr t2
    /\ with_suffix o ".json" = inr mp
    /\ write_file mp
         (json_dump
            (JDict [("type", JStr "texture");
                    ("format", JStr "rgba8");
                    ("width", JInt (Image_width image));
                    ("height", JInt (Image_height image));
                    ("channels", JInt 4);
                    ("mipmaps", JBool true);
                    ("source", JStr (str i))])) t2 = inr (fs w').
Proof.
  intros H. apply try_except_true in H.
  apply bind_inr in H. destruct H as (root & w1 & H1 & H).
  apply get_fs_inr in H1. destruct H1 as (-> & ->).
  apply bind_inr in H. destruct H as (data & w2 & H2 & H).
  apply lift_inr in H2. destruct H2 as (Hrd & ->).
  apply bind_inr in H. destruct H as (opened & w3 & H3 & H).
  apply lift_inr in H3. destruct H3 as (Hop & ->).
  apply bind_inr in H. destruct H as (image & w4 & H4 & H).
  assert (Hconv : (if negb (String.eqb (Image_mode opened) "RGBA")
                   then Image_convert opened "RGBA" else inr opened) = inr image
                  /\ w4 = w).
  { destruct (negb (String.eqb (Image_mode opened) "RGBA")).
    - now apply lift_inr in H4.
    - apply ret_inr in H4. destruct H4 as (-> & ->). auto. }
  destruct Hconv as (Hconv & ->).
  apply bind_inr in H. destruct H as (u1 & w5 & H5 & H).
  apply on_fs_inr in H5. destruct H5 as (t1 & Hmk & ->).
  apply bind_inr in H. destruct H as (png & w6 & H6 & H).
  apply lift_inr in H6. destruct H6 as (Hpng & ->).
  apply bind_inr in H. destruct H as (u2 & w7 & H7 & H).
  apply on_fs_inr in H7. destruct H7 as (t2 & Hout & ->). simpl in Hout.
  apply bind_inr in H. destruct H as (mp & w8 & H8 & H).
  apply lift_inr in H8. destruct H8 as (Hmp & ->).
  apply bind_inr in H. destruct H as (u3 & w9 & H9 & H).
  apply on_fs_inr in H9. destruct H9 as (t3 & Hwr & ->). simpl in Hwr.
  apply bind_inr in H. destruct H as (u4 & w10 & H10 & H).
  apply print_inr in H10. subst w10.
  apply ret_inr in H. destruct H as (_ & ->). simpl.
  exists data, opened, image, png, mp, t1, t2. auto 10.
Qed.

End Recook.

Section RecookAll.

Context `{R : Runtime}.

Lemma shader_again (i o mp : path) (w w1 : world) :
  ShaderProcessor_process i o w = (inr true, w1) ->
  with_suffix o ".json" = inr mp ->
  i <> o -> i <> mp -> o <> mp ->
  exists w2, ShaderProcessor_process i o w1 = (inr true, w2) /\ fs w2 = fs w1.
Proof.
  intros H Hmp Hio Himp Homp.
  destruct (shader_steps i o w w1 H)
    as (data & source & mp' & t1 & t2 & Hsrc & Hdec & Hmk & Hout & Hmp' & Hwr).
  rewrite Hmp in Hmp'. injection Hmp' as <-.
  assert (Ro : read_file o (fs w1) = inr (text_encode source)).
  { rewrite (write_at_read_other _ _ _ _ o Hwr Homp), read_below_some.
    eapply write_at_read_same. exact Hout. }
  assert (Rmp : read_file mp (fs w1) = inr (json_dump (shader_metadata i)))
    by (eapply write_at_read_same; exact Hwr).
  assert (Ri : read_file i (fs w1) = inr data).
  { rewrite (write_at_read_other _ _ _ _ i Hwr Himp), read_below_some.
    rewrite (write_at_read_other _ _ _ _ i Hout Hio), read_below_some.
    unfold mkdir_parents in Hmk.
    now rewrite (mkdir_at_read _ _ _ i Hmk), read_below_some. }
  assert (Hone : o <> []).
  { intros ->. apply with_suffix_inv in Hmp. now destruct Hmp. }
  pose proof (mkdir_parents_existing _ _
                (read_file_parent_is_dir _ _ _ Hone Ro)) as Hmk2.
  pose proof (write_file_same _ _ _ Ro) as Hout2.
  pose proof (write_file_same _ _ _ Rmp) as Hwr2.
  destruct w1 as [t3 out3 calls3]. cbn [fs] in *.
  eexists. split.
  - unfold ShaderProcessor_process. apply try_except_run.
    rewrite (bind_run get_fs _ (World t3 out3 calls3) _ t3 eq_refl). cbv beta.
    rewrite (bind_run _ _ _ _ _ (lift_run _ _ (World t3 out3 calls3) Ri)). cbv beta.
    rewrite (bind_run _ _ _ _ _ (lift_run _ _ (World t3 out3 calls3) Hdec)). cbv beta.
    rewrite (bind_run _ _ _ _ _ (on_fs_run _ (World t3 out3 calls3) _ Hmk2)).
    cbv beta. cbn [fs stdout calls].
    rewrite (bind_run _ _ _ _ _ (on_fs_run _ (World t3 out3 calls3) _ Hout2)).
    cbv beta. cbn [fs stdout calls].
    eapply describe_run; [exact Hmp | exact Hwr2].
  - reflexivity.
Qed.

Lemma texture_again (i o mp : path) (w w1 : world) :
  TextureProcessor_process i o w = (inr true, w1) ->
  with_suffix o ".json" = inr mp ->
  i <> o -> i <> mp -> o <> mp ->
  exists w2, TextureProcessor_process i o w1 = (inr true, w2) /\ fs w2 = fs w1.
Proof.
  intros H Hmp Hio Himp Homp.
  destruct (texture_steps i o w w1 H)
    as (data & opened & image & png & mp' & t1 & t2
        & Hsrc & Hop & Hconv & Hmk & Hpng & Hout & Hmp' & Hwr).
  rewrite Hmp in Hmp'. injection Hmp' as <-.
  assert (Ro : read_file o (fs w1) = inr png).
  { rewrite (write_at_read_other _ _ _ _ o Hwr Homp), read_below_some.
    eapply write_at_read_same. exact Hout. }
  pose proof (write_at_read_same _ _ _ _ Hwr) as Rmp.
  assert (Ri : read_file i (fs w1) = inr data).
  { rewrite (write_at_read_other _ _ _ _ i Hwr Himp), read_below_some.
    rewrite (write_at_read_other _ _ _ _ i Hout Hio), read_below_some.
    unfold mkdir_parents in Hmk.
    now rewrite (mkdir_at_read _ _ _ i Hmk), read_below_some. }
  assert (Hone : o <> []).
  { intros ->. apply with_suffix_inv in Hmp. now destruct Hmp. }
  pose proof (mkdir_parents_existing _ _
                (read_file_parent_is_dir _ _ _ Hone Ro)) as Hmk2.
  pose proof (write_file_same _ _ _ Ro) as Hout2.
  pose proof (write_file_same _ _ _ Rmp) as Hwr2.
  destruct w1 as [t3 out3 calls3]. cbn [fs] in *.
  assert (Hc : (if negb (String.eqb (Image_mode opened) "RGBA")
                then lift (Image_convert opened "RGBA") else ret opened)
                 (World t3 out3 calls3)
               = (inr image, World t3 out3 calls3)).
  { destruct (negb (String.eqb (Image_mode opened) "RGBA")).
    - now apply lift_run.
    - now injection Hconv as ->. }
  eexists. split.
  - unfold TextureProcessor_process. apply try_except_run.
    rewrite (bind_run get_fs _ (World t3 out3 calls3) _ t3 eq_refl). cbv beta.
    rewrite (bind_run _ _ _ _ _ (lift_run _ _ (World t3 out3 calls3) Ri)). cbv beta.
    rewrite (bind_run _ _ _ _ _ (lift_run _ _ (World t3 out3 calls3) Hop)). cbv beta.
    rewrite (bind_run _ _ _ _ _ Hc). cbv beta.
    rewrite (bind_run _ _ _ _ _ (on_fs_run _ (World t3 out3 calls3) _ Hmk2)).
    cbv beta. cbn [fs stdout calls].
    rewrite (bind_run _ _ _ _ _ (lift_run _ _ (World t3 out3 calls3) Hpng)). cbv beta.
    rewrite (bind_run _ _ _ _ _ (on_fs_run _ (World t3 out3 calls3) _ Hout2)).
    cbv beta. cbn [fs stdout calls].
    eapply describe_run; [exact Hmp | exact Hwr2].
  - reflexivity.
Qed.

(** X16. Cooking a file a second time changes nothing: when a processor
    returned [True], the source, the output path and the metadata path are
    three different paths and the output path was not a directory, the same
    call on the resulting tree returns [True] again and leaves the tree as
    it is. *)
Theorem recook_changes_nothing (processor : AssetProcessor)
    (input_path output_path metadata_path : path) (w w1 : world) :
  process processor input_path output_path w = (inr true, w1) ->
  with_suffix output_path ".json" = inr metadata_path ->
  input_path <> output_path ->
  input_path <> metadata_path ->
  output_path <> metadata_path ->
  is_dir output_path (fs w) = false ->
  exists w2,
    process processor input_path output_path w1 = (inr true, w2)
    /\ fs w2 = fs w1.
Proof.
  intros H Hmp Hio Himp Homp Hod. destruct processor; simpl in *.
  - now apply (texture_again _ _ metadata_path w).
  - now apply (copy_and_describe_again "model" (model_metadata input_path)
                 _ _ metadata_path w).
  - now apply (copy_and_describe_again "audio" (audio_metadata input_path)
                 _ _ metadata_path w).
  - now apply (shader_again _ _ metadata_path w).
Qed.

End RecookAll.

(** X16 on the example tree: the shader [assets/b.frag] cooked twice. *)
Lemma recook_changes_nothing_witness :
  let w1 := snd (process ShaderProcessor ["assets"; "b.frag"] ["cooked"; "b.frag"]
                   Example.start) in
  exists w2,
    process ShaderProcessor ["assets"; "b.frag"] ["cooked"; "b.frag"] w1
    = (inr true, w2)
    /\ fs w2 = fs w1.
Proof.
  intros w1.
  assert (H : process ShaderProcessor ["assets"; "b.frag"] ["cooked"; "b.frag"]
                Example.start = (inr true, w1)) by reflexivity.
  apply (recook_changes_nothing ShaderProcessor _ _ ["cooked"; "b.json"]
           Example.start w1 H); try reflexivity; discriminate.
Defined.

(** ** Building the manifest again *)

(** What writing a file does to the directory that holds it. *)
Lemma write_file_entries (d : path) (c : string) (data : bytes) :
  forall root t,
    write_file (d ++ [c]) data root = inr t ->
    exists es,
      lookup d root = Some (Dir es)
      /\ lookup d t = Some (Dir (entry_set c (File data) es))
      /\ forall es', entry_find c es <> Some (Dir es').
Proof.
  unfold write_file.
  induction d as [|c0 d IH]; intros root t; simpl.
  - destruct root as [|es]; [discriminate|].
    destruct (entry_find c es) as [[|]|] eqn:E; try discriminate;
      intros H; injection H as <-; exists es;
      (split; [reflexivity|]; split; [reflexivity|]);
      intros es'; congruence.
  - destruct root as [|es0]; [discriminate|].
    destruct (entry_find c0 es0) as [m0|] eqn:E0.
    + destruct (write_at (d ++ [c]) data (Some m0)) as [e|m] eqn:Em; [discriminate|].
      intros H. injection H as <-.
      destruct (IH m0 m Em) as (es & H1 & H2 & H3).
      exists es. rewrite entry_find_set_same. auto.
    + destruct (d ++ [c]) eqn:Ed; [|discriminate].
      apply app_eq_nil in Ed. destruct Ed; discriminate.
Qed.

(** Setting the entry [c] of a directory changes its listing at most by the
    path of [c]. *)
Lemma children_entry_set (d : path) (c : string) (n : node)
    (es : list (string * node)) :
  filter (fun p => negb (String.eqb (name p) c)) (children d (entry_set c n es))
  = filter (fun p => negb (String.eqb (name p) c)) (children d es).
Proof.
  unfold children. induction es as [|[c' n'] es IH]; simpl.
  - now rewrite name_snoc, String.eqb_refl.
  - destruct (String.eqb c' c); simpl; [reflexivity|]. now rewrite IH.
Qed.

(** Replacing what is not a directory by a file changes nothing below. *)
Lemma below_entry_set (d : path) (c : string) (data : bytes)
    (es : list (string * node)) :
  (forall es', entry_find c es <> Some (Dir es')) ->
  flat_map (fun e => descendants (d ++ [fst e]) (snd e))
    (entry_set c (File data) es)
  = flat_map (fun e => descendants (d ++ [fst e]) (snd e)) es.
Proof.
  induction es as [|[c' n'] es IH]; simpl; intros Hn; [reflexivity|].
  destruct (String.eqb c' c); simpl.
  - destruct n' as [|es']; [reflexivity|]. now destruct (Hn es').
  - now rewrite IH.
Qed.

Lemma filter_filter_comm {A} (f g : A -> bool) (l : list A) :
  filter f (filter g l) = filter g (filter f l).
Proof.
  induction l as [|a l IH]; simpl; [reflexivity|].
  destruct (f a) eqn:Ef, (g a) eqn:Eg; simpl; rewrite ?Ef, ?Eg, IH; reflexivity.
Qed.

(** The metadata files found after [manifest.json] was written are those
    found before, up to [manifest.json] itself. *)
Lemma rglob_json_after_manifest (output_dir : path) (data : bytes) (root t : node) :
  write_file (output_dir ++ ["manifest.json"]) data root = inr t ->
  filter (fun p => negb (String.eqb (name p) "manifest.json"))
    (rglob_json output_dir t)
  = filter (fun p => negb (String.eqb (name p) "manifest.json"))
      (rglob_json output_dir root).
Proof.
  intros Hw. apply write_file_entries in Hw. destruct Hw as (es & H1 & H2 & H3).
  unfold rglob_json, rglob_star. rewrite H1, H2.
  rewrite !(filter_filter_comm _ (fun p => Str.endswith ".json" (name p))).
  f_equal. rewrite !descendants_dir, !filter_app.
  now rewrite children_entry_set, below_entry_set.
Qed.

Section ManifestAgain.

Context `{R : Runtime}.

(** The records aggregated do not depend on files called [manifest.json]. *)
Lemma aggregated_filter (output_dir : path) (root : node) (l : list path) :
  aggregated output_dir root l
  = aggregated output_dir root
      (filter (fun p => negb (String.eqb (name p) "manifest.json")) l).
Proof.
  induction l as [|f l IH]; simpl; [reflexivity|].
  destruct (String.eqb (name f) "manifest.json") eqn:E; simpl; [exact IH|].
  rewrite E. now rewrite IH.
Qed.

Lemma aggregated_same_files (output_dir : path) (root t : node) (l : list path) :
  (forall f, name f <> "manifest.json" -> read_file f t = read_file f root) ->
  aggregated output_dir t l = aggregated output_dir root l.
Proof.
  intros Hsame. induction l as [|f l IH]; simpl; [reflexivity|].
  destruct (String.eqb (name f) "manifest.json") eqn:E; [exact IH|].
  apply String.eqb_neq in E. unfold metadata_record.
  now rewrite (Hsame f E), IH.
Qed.

(** X17. Building the manifest a second time changes nothing: the manifest
    that the first run wrote is not read as a metadata file by the second,
    which aggregates the same records, returns [True] and leaves the file
    tree as it is. *)
Theorem manifest_regeneration_changes_nothing (output_dir : path) (w w1 : world) :
  generate_asset_manifest output_dir w = (inr true, w1) ->
  aggregated output_dir (fs w1) (rglob_json output_dir (fs w1))
  = aggregated output_dir (fs w) (rglob_json output_dir (fs w))
  /\ exists w2,
       generate_asset_manifest output_dir w1 = (inr true, w2)
       /\ fs w2 = fs w1.
Proof.
  intros H.
  destruct (generate_asset_manifest_spec output_dir w) as (b & w' & H1 & _ & H2).
  rewrite H in H1. injection H1 as <- <-.
  set (assets := aggregated output_dir (fs w) (rglob_json output_dir (fs w))) in *.
  set (manifest_path := joinpath output_dir ["manifest.json"]) in *.
  destruct (write_file manifest_path (json_dump (make_manifest assets)) (fs w))
    as [e|t] eqn:Hw; [destruct H2; discriminate|].
  destruct H2 as [_ Hfs].
  assert (Hagg : aggregated output_dir (fs w1) (rglob_json output_dir (fs w1))
                 = assets).
  { rewrite Hfs. unfold assets.
    rewrite (aggregated_filter _ t), (aggregated_filter _ (fs w)).
    rewrite (rglob_json_after_manifest _ _ _ _ Hw).
    apply aggregated_same_files. intros f Hf.
    rewrite (write_at_read_other _ _ _ _ f Hw); [reflexivity|].
    intros ->. apply Hf. apply name_snoc. }
  split; [exact Hagg|].
  destruct (generate_asset_manifest_spec output_dir w1) as (b2 & w2 & H3 & _ & H4).
  rewrite Hagg in H4. fold manifest_path in H4.
  assert (Hsame : write_file manifest_path (json_dump (make_manifest assets)) (fs w1)
                  = inr (fs w1)).
  { apply write_file_same. rewrite Hfs. eapply write_at_read_same. exact Hw. }
  rewrite Hsame in H4. destruct H4 as [-> Hfs2].
  exists w2. split; [exact H3 | exact Hfs2].
Qed.

End ManifestAgain.

(** X17 on an output directory with three metadata files. *)
Lemma manifest_regeneration_changes_nothing_witness :
  let w1 := snd (generate_asset_manifest ["out"] Example.damaged) in
  aggregated ["out"] (fs w1) (rglob_json ["out"] (fs w1))
  = aggregated ["out"] (fs Example.damaged) (rglob_json ["out"] (fs Example.damaged))
  /\ exists w2,
       generate_asset_manifest ["out"] w1 = (inr true, w2)
       /\ fs w2 = fs w1.
Proof.
  intros w1.
  assert (H : generate_asset_manifest ["out"] Example.damaged = (inr true, w1))
    by reflexivity.
  apply (manifest_regeneration_changes_nothing ["out"] Example.damaged w1 H).
Defined.

(** ** One metadata file for several outputs *)

Lemma with_suffix_run (p : path) (sfx : string) :
  sfx = "" \/ sfx = ".json" ->
  name p <> "" ->
  with_suffix p sfx
  = inr (parent p
           ++ [((if String.eqb (suffix p) "" then name p
                 else Str.take (String.length (name p) - String.length (suffix p))
                        (name p)) ++ sfx)%string]).
Proof.
  intros Hs Hn. apply String.eqb_neq in Hn. unfold with_suffix.
  destruct Hs as [-> | ->]; cbn [Str.contains String.eqb negb andb orb];
    rewrite Hn; now destruct (String.eqb (suffix p) "").
Qed.

Section SharedMetadata.

Context `{R : Runtime}.

(** X18. Output paths that differ only in their suffix have the same
    metadata file, and a processor that returns [True] leaves its own
    record there, with its own [type]: of two assets cooked to such paths,
    whatever their categories, only the one cooked last keeps its
    metadata. *)
Theorem metadata_file_is_shared (processor : AssetProcessor)
    (input_path output_path other_output metadata_path : path) (w w' : world) :
  with_suffix output_path ".json" = inr metadata_path ->
  with_suffix other_output "" = with_suffix output_path "" ->
  process processor input_path output_path w = (inr true, w') ->
  with_suffix other_output ".json" = inr metadata_path
  /\ exists metadata,
       read_file metadata_path (fs w') = inr (json_dump metadata)
       /\ getitem metadata "type" = Some (JStr (recorded_type processor)).
Proof.
  intros Hmp Hstem H. split.
  - pose proof Hmp as Hmp0. apply with_suffix_inv in Hmp0.
    destruct Hmp0 as (Hn & Hq).
    rewrite (with_suffix_run output_path "" (or_introl eq_refl) Hn) in Hstem.
    apply with_suffix_inv in Hstem. destruct Hstem as (Hn' & Hq').
    apply app_inj_tail in Hq'. destruct Hq' as (Hpar & Hk).
    rewrite !append_empty_r in Hk.
    rewrite (with_suffix_run other_output ".json" (or_intror eq_refl) Hn').
    rewrite Hq, <- Hpar, <- Hk. reflexivity.
  - destruct processor; simpl in H.
    + destruct (texture_steps _ _ _ _ H)
        as (data & opened & image & png & mp' & t1 & t2
            & _ & _ & _ & _ & _ & _ & Hmp' & Hwr).
      rewrite Hmp in Hmp'. injection Hmp' as <-.
      eexists. split; [eapply write_at_read_same; exact Hwr | reflexivity].
    + destruct (copy_and_describe _ _ _ _ _ _ H)
        as (data & mp' & t1 & t2 & _ & _ & _ & _ & Hmp' & _ & Hrd & _).
      rewrite Hmp in Hmp'. injection Hmp' as <-.
      eexists. split; [exact Hrd | reflexivity].
    + destruct (copy_and_describe _ _ _ _ _ _ H)
        as (data & mp' & t1 & t2 & _ & _ & _ & _ & Hmp' & _ & Hrd & _).
      rewrite Hmp in Hmp'. injection Hmp' as <-.
      eexists. split; [exact Hrd | reflexivity].
    + destruct (shader_steps _ _ _ _ H)
        as (data & source & mp' & t1 & t2 & _ & _ & _ & _ & Hmp' & Hwr).
      rewrite Hmp in Hmp'. injection Hmp' as <-.
      eexists. split; [eapply write_at_read_same; exact Hwr | reflexivity].
Qed.

End SharedMetadata.

(** X18 on the example tree: the sound [s.wav] cooked to [cooked/m.wav],
    whose metadata file is that of [cooked/m.obj]. *)
Lemma metadata_file_is_shared_witness :
  let w' := snd (process AudioProcessor ["assets"; "models"; "s.wav"]
                   ["cooked"; "m.wav"] Example.start) in
  with_suffix ["cooked"; "m.obj"] ".json" = inr ["cooked"; "m.json"]
  /\ exists metadata,
       read_file ["cooked"; "m.json"] (fs w') = inr (json_dump metadata)
       /\ getitem metadata "type" = Some (JStr (recorded_type AudioProcessor)).
Proof.
  intros w'.
  assert (H : process AudioProcessor ["assets"; "models"; "s.wav"]
                ["cooked"; "m.wav"] Example.start = (inr true, w')) by reflexivity.
  apply (metadata_file_is_shared AudioProcessor ["assets"; "models"; "s.wav"]
           ["cooked"; "m.wav"] ["cooked"; "m.obj"] ["cooked"; "m.json"]
           Example.start w' eq_refl eq_refl H).
Defined.
